(** * Kubernetes monitoring dashboard: the deployment and metrics pipeline

    A shallow embedding of [src/main.py] (class [KubernetesMonitor]):
    [get_prometheus_url], [get_minikube_ip], [deploy_application],
    [fix_deployment_file], [check_deployment_status] and
    [get_prometheus_metrics].

    The program talks to the outside through [subprocess.run], the
    Kubernetes client, the Prometheus client, file writes and [print].
    Every such call is answered by an oracle of a [World], which sees the
    interactions that came before; every call and its answer is recorded
    as an [Event].  A method is a function from the world and the history
    to its result and the events it emitted.

    Limits of the model: JSON numbers are integers; [print] does not
    raise; only exceptions derived from [Exception] are raised (no
    [KeyboardInterrupt]); text is ASCII. *)

From Stdlib Require Import ZArith String Ascii List Bool Lia DecimalString.
From stdpp Require Import gmap strings.
Import ListNotations.
Local Open Scope string_scope.
Local Open Scope Z_scope.
Local Open Scope list_scope.
Set Warnings "-register-all".

(** ** Python values *)

(** The exceptions the modelled code can meet; all derive from
    [Exception], so every [except Exception] clause catches them. *)
Inductive exn :=
| KeyError
| IndexError
| TypeError
| AttributeError
| JSONDecodeError
| OSError
| ApiException
| ConfigException
| OtherException (name : string).

Inductive Result (A : Type) :=
| Ok (a : A)
| Raise (e : exn).
Arguments Ok {A} a.
Arguments Raise {A} e.

(** What [json.loads] produces, and what [custom_query] returns.  A
    [JDict] lists the items of a Python dict in insertion order, with
    distinct keys.  Numbers are integers: non-integral JSON numbers
    (Python floats) are outside the model. *)
Inductive json :=
| JNull
| JBool (b : bool)
| JInt (n : Z)
| JStr (s : string)
| JList (l : list json)
| JDict (d : list (string * json)).

Fixpoint assoc (k : string) (d : list (string * json)) : option json :=
  match d with
  | [] => None
  | (k', v) :: d' => if String.eqb k k' then Some v else assoc k d'
  end.

(** [x == y] on Python values.  [bool] is a subclass of [int], so
    [True == 1]; dicts compare as maps, lists element by element. *)
Fixpoint py_eq (x y : json) {struct x} : bool :=
  match x, y with
  | JNull, JNull => true
  | JBool a, JBool b => Bool.eqb a b
  | JBool a, JInt n => Z.b2z a =? n
  | JInt n, JBool b => n =? Z.b2z b
  | JInt n, JInt m => n =? m
  | JStr s, JStr t => String.eqb s t
  | JList l, JList m =>
      (fix elems (l m : list json) {struct l} : bool :=
         match l, m with
         | [], [] => true
         | a :: l', b :: m' => py_eq a b && elems l' m'
         | _, _ => false
         end) l m
  | JDict d, JDict e =>
      (length d =? length e)%nat &&
      (fix items (d : list (string * json)) {struct d} : bool :=
         match d with
         | [] => true
         | (k, v) :: d' =>
             match assoc k e with
             | Some v' => py_eq v v'
             | None => false
             end && items d'
         end) d
  | _, _ => false
  end.

(** Truth value of a Python object, as [if x:] tests it. *)
Definition truthy (x : json) : bool :=
  match x with
  | JNull => false
  | JBool b => b
  | JInt n => negb (n =? 0)
  | JStr s => negb (String.eqb s EmptyString)
  | JList l => match l with [] => false | _ => true end
  | JDict d => match d with [] => false | _ => true end
  end.

(** [x[k]] for a string key [k]. *)
Definition getitem_str (x : json) (k : string) : Result json :=
  match x with
  | JDict d => match assoc k d with Some v => Ok v | None => Raise KeyError end
  | _ => Raise TypeError
  end.

(** [x[i]] for a literal index [i >= 0].  A [str] is indexed by
    character (ASCII text assumed). *)
Definition getitem_int (x : json) (i : nat) : Result json :=
  match x with
  | JList l => match nth_error l i with Some v => Ok v | None => Raise IndexError end
  | JStr s => match String.get i s with
              | Some c => Ok (JStr (String c EmptyString))
              | None => Raise IndexError
              end
  | JDict _ => Raise KeyError
  | _ => Raise TypeError
  end.

(** [x.get(k, default)]: only dicts have the method. *)
Definition dict_get (x : json) (k : string) (default : json) : Result json :=
  match x with
  | JDict d => Ok (match assoc k d with Some v => v | None => default end)
  | _ => Raise AttributeError
  end.

(** [len(x)]. *)
Definition py_len (x : json) : Result Z :=
  match x with
  | JList l => Ok (Z.of_nat (length l))
  | JDict d => Ok (Z.of_nat (length d))
  | JStr s => Ok (Z.of_nat (String.length s))
  | _ => Raise TypeError
  end.

(** [str(n)] for an int. *)
Definition str_of_int (n : Z) : string := NilZero.string_of_int (Z.to_int n).

(** [s.strip()]: whitespace removed at both ends (the ASCII whitespace
    characters of [str.isspace]). *)
Definition isspace (c : ascii) : bool :=
  let n := nat_of_ascii c in
  ((9 <=? n) && (n <=? 13) || (28 <=? n) && (n <=? 32))%nat.

Fixpoint lstrip (s : string) : string :=
  match s with
  | String c s' => if isspace c then lstrip s' else s
  | EmptyString => EmptyString
  end.

Fixpoint rstrip (s : string) : string :=
  match s with
  | String c s' =>
      match rstrip s' with
      | EmptyString => if isspace c then EmptyString else String c EmptyString
      | t => String c t
      end
  | EmptyString => EmptyString
  end.

Definition strip (s : string) : string := rstrip (lstrip s).

(** The double quote, for the literals of the source that contain it. *)
Definition dq : string := String (ascii_of_nat 34) EmptyString.
Definition nl : string := String (ascii_of_nat 10) EmptyString.

(** ** The outside world *)

(** [subprocess.CompletedProcess], as [capture_output=True, text=True]
    fills it. *)
Record CompletedProcess := {
  returncode : Z;
  stdout : string;
  stderr : string
}.

(** The fields of the Kubernetes client's service objects that the code
    reads.  [ports] is empty for a service without ports ([None] and
    [[]] are both false); [node_port] is [None] when no node port is
    assigned. *)
Record V1ServicePort := { node_port : option Z }.
Record V1ServiceSpec := { ports : list V1ServicePort }.
Record V1Service := { spec : V1ServiceSpec }.

(** [PrometheusConnect(url=..., disable_ssl=True)]. *)
Record PrometheusConnect := { url : string; disable_ssl : bool }.

(** The lines the program prints, each kept as its template with the
    values interpolated into it. *)
Inductive Msg :=
| MsgDeploying                              (* line 104 *)
| MsgBuildingImage                          (* line 111 *)
| MsgLoadingImage                           (* line 116 *)
| MsgApplyingManifests                      (* line 121 *)
| MsgDeployed                               (* line 130 *)
| MsgDeployError (e : exn)                  (* line 134 *)
| MsgDeploymentFileFixed                    (* line 170 *)
| MsgStatus (ready total : json)            (* line 185: ready/total *)
| MsgDeploymentReady                        (* line 188 *)
| MsgAvailableAt (ip : string) (node_port : json)  (* line 200: http://ip:node_port *)
| MsgStatusError (e : exn)                  (* line 206 *)
| MsgPrometheusNotConnected                 (* line 212 *)
| MsgMetricsHeader                          (* line 238 *)
| MsgCpu (v : json)                         (* line 239 *)
| MsgMemory (v : json)                      (* line 240 *)
| MsgDisk (v : json)                        (* line 241 *)
| MsgPods (v : json)                        (* line 242 *)
| MsgMetricsError (e : exn).                (* line 247 *)

(** One interaction: the call and what it answered. *)
Inductive Event :=
| ERun (argv : list string) (res : Result CompletedProcess)
| ELoadKubeConfig (res : Result unit)
| EListService (namespace label_selector : string) (res : Result (list V1Service))
| ECustomQuery (prom : PrometheusConnect) (query : string) (res : Result json)
| EWriteFile (path content : string) (res : Result unit)
| EPrint (m : Msg).

(** The environment: each oracle answers a call given the interactions
    so far, so answers may change from one call to the next.
    [json_loads] is a pure function of its text. *)
Record World := {
  subprocess_run : list Event -> list string -> Result CompletedProcess;
  load_kube_config : list Event -> Result unit;
  list_namespaced_service : list Event -> string -> string -> Result (list V1Service);
  custom_query : list Event -> PrometheusConnect -> string -> Result json;
  write_file : list Event -> string -> string -> Result unit;
  json_loads : string -> Result json
}.

(** ** Computations *)

(** A computation reads the world and the history and yields a result
    or an exception, with the events it emitted, oldest first. *)
Definition M (A : Type) : Type := World -> list Event -> Result A * list Event.

Definition ret {A} (a : A) : M A := fun _ _ => (Ok a, []).

Definition bind {A B} (m : M A) (k : A -> M B) : M B := fun w h =>
  match m w h with
  | (Ok a, es) => let '(r, es') := k a w (h ++ es) in (r, es ++ es')
  | (Raise e, es) => (Raise e, es)
  end.

(** [try: body / except Exception as e: handler]. *)
Definition try_except {A} (body : M A) (handler : exn -> M A) : M A := fun w h =>
  match body w h with
  | (Ok a, es) => (Ok a, es)
  | (Raise e, es) => let '(r, es') := handler e w (h ++ es) in (r, es ++ es')
  end.

(** A pure step that may raise. *)
Definition lift {A} (r : Result A) : M A := fun _ _ => (r, []).

Notation "x <- m ;; k" := (bind m (fun x => k))
  (at level 100, m at next level, right associativity).
Notation "m ;; k" := (bind m (fun _ => k))
  (at level 100, right associativity).

Definition print (m : Msg) : M unit := fun _ _ => (Ok tt, [EPrint m]).

Definition run (argv : list string) : M CompletedProcess := fun w h =>
  let r := subprocess_run w h argv in (r, [ERun argv r]).

Definition kube_config : M unit := fun w h =>
  let r := load_kube_config w h in (r, [ELoadKubeConfig r]).

Definition list_service (namespace label_selector : string) : M (list V1Service) :=
  fun w h =>
    let r := list_namespaced_service w h namespace label_selector in
    (r, [EListService namespace label_selector r]).

Definition query (prom : PrometheusConnect) (q : string) : M json := fun w h =>
  let r := custom_query w h prom q in (r, [ECustomQuery prom q r]).

Definition write (path content : string) : M unit := fun w h =>
  let r := write_file w h path content in (r, [EWriteFile path content r]).

Definition loads (text : string) : M json := fun w _ => (json_loads w text, []).

(** ** class KubernetesMonitor *)

Record KubernetesMonitor := {
  namespace : string;
  k8s_config : option unit;
  prometheus : option PrometheusConnect;
  project_files : list (string * string)
}.

(** [__init__] *)
Definition init (namespace : string) : KubernetesMonitor :=
  {| namespace := namespace;
     k8s_config := None;
     prometheus := None;
     project_files :=
       [("deployment", "deployment.yaml"); ("service", "service.yaml");
        ("jenkins_script", "jenkins-build.sh"); ("dockerfile", "Dockerfile")] |}.

(** [get_minikube_ip] *)
Definition get_minikube_ip (self : KubernetesMonitor) : M string :=
  try_except
    (result <- run ["minikube"; "ip"] ;;
     ret (strip (stdout result)))
    (fun _ => ret "192.168.49.2").

Definition fallback_url : string := "http://localhost:9090".

(** The [for svc in services.items] loop of [get_prometheus_url]; falling
    out of the loop reaches the [return] after it. *)
Fixpoint get_prometheus_url_loop (self : KubernetesMonitor) (items : list V1Service)
  : M string :=
  match items with
  | [] => ret fallback_url
  | svc :: rest =>
      match ports (spec svc) with
      | [] => get_prometheus_url_loop self rest
      | p0 :: _ =>
          match node_port p0 with
          | Some port =>
              if port =? 0 then get_prometheus_url_loop self rest
              else
                node_ip <- get_minikube_ip self ;;
                ret ("http://" +:+ node_ip +:+ ":" +:+ str_of_int port)
          | None => get_prometheus_url_loop self rest
          end
      end
  end.

(** [get_prometheus_url] *)
Definition get_prometheus_url (self : KubernetesMonitor) : M string :=
  try_except
    (kube_config ;;
     services <- list_service (namespace self) "app=prometheus" ;;
     get_prometheus_url_loop self services)
    (fun _ => ret fallback_url).

Definition deployment_content : string :=
  String.concat nl
    [ "apiVersion: apps/v1";
      "kind: Deployment";
      "metadata:";
      "  name: my-docker-app";
      "spec:";
      "  replicas: 1";
      "  selector:";
      "    matchLabels:";
      "      app: my-docker-app";
      "  template:";
      "    metadata:";
      "      labels:";
      "        app: my-docker-app";
      "    spec:";
      "      containers:";
      "      - name: my-docker-app";
      "        image: my-docker-app:latest";
      "        imagePullPolicy: Never";
      "        ports:";
      "        - containerPort: 5000";
      "        resources:";
      "          requests:";
      "            memory: " +:+ dq +:+ "128Mi" +:+ dq;
      "            cpu: " +:+ dq +:+ "100m" +:+ dq;
      "          limits:";
      "            memory: " +:+ dq +:+ "256Mi" +:+ dq;
      "            cpu: " +:+ dq +:+ "200m" ].

(** [fix_deployment_file] *)
Definition fix_deployment_file (self : KubernetesMonitor) : M unit :=
  write "deployment.yaml" deployment_content ;;
  print MsgDeploymentFileFixed.

Definition argv_get_deployment : list string :=
  ["kubectl"; "get"; "deployment"; "my-docker-app"; "-o"; "json"].
Definition argv_get_svc : list string :=
  ["kubectl"; "get"; "svc"; "my-docker-service"; "-o"; "json"].

(** [check_deployment_status] *)
Definition check_deployment_status (self : KubernetesMonitor) : M bool :=
  try_except
    (result <- run argv_get_deployment ;;
     if returncode result =? 0 then
       data <- loads (stdout result) ;;
       status <- lift (getitem_str data "status") ;;
       ready <- lift (dict_get status "readyReplicas" (JInt 0)) ;;
       spec_ <- lift (getitem_str data "spec") ;;
       total <- lift (getitem_str spec_ "replicas") ;;
       print (MsgStatus ready total) ;;
       (if py_eq ready total then
          print MsgDeploymentReady ;;
          service_result <- run argv_get_svc ;;
          if returncode service_result =? 0 then
            svc_data <- loads (stdout service_result) ;;
            svc_spec <- lift (getitem_str svc_data "spec") ;;
            svc_ports <- lift (getitem_str svc_spec "ports") ;;
            port0 <- lift (getitem_int svc_ports 0) ;;
            node_port <- lift (getitem_str port0 "nodePort") ;;
            ip <- get_minikube_ip self ;;
            print (MsgAvailableAt ip node_port)
          else ret tt
        else ret tt) ;;
       ret (py_eq ready total)
     else ret false)
    (fun e => print (MsgStatusError e) ;; ret false).

Definition argv_docker_build : list string :=
  ["docker"; "build"; "-t"; "my-docker-app:latest"; "."].
Definition argv_image_load : list string :=
  ["minikube"; "image"; "load"; "my-docker-app:latest"].
Definition argv_apply (file : string) : list string :=
  ["kubectl"; "apply"; "-f"; file].

(** [deploy_application] *)
Definition deploy_application (self : KubernetesMonitor) : M bool :=
  print MsgDeploying ;;
  try_except
    (fix_deployment_file self ;;
     print MsgBuildingImage ;;
     run argv_docker_build ;;
     print MsgLoadingImage ;;
     run argv_image_load ;;
     print MsgApplyingManifests ;;
     run (argv_apply "deployment.yaml") ;;
     run (argv_apply "service.yaml") ;;
     check_deployment_status self ;;
     print MsgDeployed ;;
     ret true)
    (fun e => print (MsgDeployError e) ;; ret false).

Definition cpu_query : string :=
  "100 - (avg by (instance) (rate(node_cpu_seconds_total{mode=" +:+ dq +:+ "idle"
  +:+ dq +:+ "}[5m])) * 100)".
Definition memory_query : string :=
  "100 * (1 - (node_memory_MemAvailable_bytes / node_memory_MemTotal_bytes))".
Definition disk_query : string :=
  "100 - ((node_filesystem_avail_bytes{mountpoint=" +:+ dq +:+ "/" +:+ dq
  +:+ "} * 100) / node_filesystem_size_bytes{mountpoint=" +:+ dq +:+ "/" +:+ dq +:+ "})".
Definition pods_query : string :=
  "kube_pod_status_phase{namespace=" +:+ dq +:+ "monitoring" +:+ dq +:+ "}".

(** [r[0]['value'][1] if r else "N/A"] *)
Definition first_sample_or_na (r : json) : Result json :=
  if truthy r then
    match getitem_int r 0 with
    | Ok s => match getitem_str s "value" with
              | Ok v => getitem_int v 1
              | Raise e => Raise e
              end
    | Raise e => Raise e
    end
  else Ok (JStr "N/A").

(** [len(r) if r else 0] *)
Definition count_or_zero (r : json) : Result json :=
  if truthy r then
    match py_len r with
    | Ok n => Ok (JInt n)
    | Raise e => Raise e
    end
  else Ok (JInt 0).

(** [get_prometheus_metrics]; the returned dict is a finite map from
    metric name to value. *)
Definition get_prometheus_metrics (self : KubernetesMonitor) : M (gmap string json) :=
  match prometheus self with
  | None =>
      print MsgPrometheusNotConnected ;;
      ret ∅
  | Some prom =>
      try_except
        (let metrics : gmap string json := ∅ in
         cpu_result <- query prom cpu_query ;;
         cpu <- lift (first_sample_or_na cpu_result) ;;
         let metrics := <["cpu" := cpu]> metrics in
         memory_result <- query prom memory_query ;;
         memory <- lift (first_sample_or_na memory_result) ;;
         let metrics := <["memory" := memory]> metrics in
         disk_result <- query prom disk_query ;;
         disk <- lift (first_sample_or_na disk_result) ;;
         let metrics := <["disk" := disk]> metrics in
         pods_result <- query prom pods_query ;;
         pods <- lift (count_or_zero pods_result) ;;
         let metrics := <["pods" := pods]> metrics in
         print MsgMetricsHeader ;;
         print (MsgCpu (default (JStr "N/A") (metrics !! "cpu"))) ;;
         print (MsgMemory (default (JStr "N/A") (metrics !! "memory"))) ;;
         print (MsgDisk (default (JStr "N/A") (metrics !! "disk"))) ;;
         print (MsgPods (default (JInt 0) (metrics !! "pods"))) ;;
         ret metrics)
        (fun e => print (MsgMetricsError e) ;; ret ∅)
  end.

(** ** Observations on a trace *)

Fixpoint argv_eqb (a b : list string) : bool :=
  match a, b with
  | [], [] => true
  | x :: a', y :: b' => String.eqb x y && argv_eqb a' b'
  | _, _ => false
  end.

(** A launch of the command [argv]. *)
Definition is_run (argv : list string) (e : Event) : bool :=
  match e with
  | ERun a _ => argv_eqb a argv
  | _ => false
  end.

(** A query sent to Prometheus. *)
Definition is_custom_query (e : Event) : bool :=
  match e with
  | ECustomQuery _ _ _ => true
  | _ => false
  end.

(** The line that announces the service endpoint (line 200). *)
Definition is_endpoint_print (e : Event) : bool :=
  match e with
  | EPrint (MsgAvailableAt _ _) => true
  | _ => false
  end.

Definition count_events (p : Event -> bool) (es : list Event) : nat :=
  length (List.filter p es).

(** A step of [deploy_application] itself that raised: the file write or
    the launch of one of its four commands. *)
Definition deploy_step_raised (e : Event) : bool :=
  match e with
  | EWriteFile _ _ (Raise _) => true
  | ERun argv (Raise _) =>
      argv_eqb argv argv_docker_build || argv_eqb argv argv_image_load
      || argv_eqb argv (argv_apply "deployment.yaml")
      || argv_eqb argv (argv_apply "service.yaml")
  | _ => false
  end.

(** The node port assigned to a service's first port entry, if any. *)
Definition assigned_node_port (svc : V1Service) : option Z :=
  match ports (spec svc) with
  | [] => None
  | p0 :: _ =>
      match node_port p0 with
      | Some port => if port =? 0 then None else Some port
      | None => None
      end
  end.

Fixpoint first_assigned_port (items : list V1Service) : option Z :=
  match items with
  | [] => None
  | svc :: rest =>
      match assigned_node_port svc with
      | Some port => Some port
      | None => first_assigned_port rest
      end
  end.

(** The node address that an answer to [minikube ip] stands for. *)
Definition node_address (answer : Result CompletedProcess) : string :=
  match answer with
  | Ok result => strip (stdout result)
  | Raise _ => "192.168.49.2"
  end.

(** The three percentage metrics with their queries. *)
Definition numeric_queries : list (string * string) :=
  [("cpu", cpu_query); ("memory", memory_query); ("disk", disk_query)].

(** The value of one sample: [s['value'][1]]. *)
Definition sample_value (s : json) : Result json :=
  match getitem_str s "value" with
  | Ok v => getitem_int v 1
  | Raise e => Raise e
  end.

(** ** The convergence poller as the specification words it (section 4.3) *)

Inductive PollerState := Pending | Converged | TimedOut.

(** One poll: a single status query; [true] when it reports as many
    ready replicas as declared.  A query error is a poll that did not
    converge. *)
Definition spec_poll : M bool :=
  try_except
    (result <- run argv_get_deployment ;;
     if returncode result =? 0 then
       data <- loads (stdout result) ;;
       status <- lift (getitem_str data "status") ;;
       ready <- lift (dict_get status "readyReplicas" (JInt 0)) ;;
       spec_ <- lift (getitem_str data "spec") ;;
       total <- lift (getitem_str spec_ "replicas") ;;
       ret (py_eq ready total)
     else ret false)
    (fun _ => ret false).

(** [Pending -> Converged] when a poll observes equality,
    [Pending -> TimedOut] when the budget of [B] polls is used up. *)
Fixpoint spec_poller (B : nat) : M PollerState :=
  match B with
  | O => ret TimedOut
  | S B' =>
      converged <- spec_poll ;;
      if converged then ret Converged else spec_poller B'
  end.

(** ** Example worlds *)

Definition completed (rc : Z) (out : string) : Result CompletedProcess :=
  Ok {| returncode := rc; stdout := out; stderr := EmptyString |}.

Definition quoted (s : string) : string := dq +:+ s +:+ dq.

(** [kubectl get deployment -o json], cut down to the fields read. *)
Definition deployment_json (ready total : string) : string :=
  "{" +:+ quoted "spec" +:+ ":{" +:+ quoted "replicas" +:+ ":" +:+ total +:+ "},"
  +:+ quoted "status" +:+ ":{" +:+ quoted "readyReplicas" +:+ ":" +:+ ready +:+ "}}".

Definition deployment_value (ready total : Z) : json :=
  JDict [("spec", JDict [("replicas", JInt total)]);
         ("status", JDict [("readyReplicas", JInt ready)])].

(** [kubectl get svc -o json] for a NodePort and for a ClusterIP service. *)
Definition nodeport_json : string :=
  "{" +:+ quoted "spec" +:+ ":{" +:+ quoted "ports" +:+ ":[{" +:+ quoted "port"
  +:+ ":5000," +:+ quoted "nodePort" +:+ ":30080}]}}".

Definition clusterip_json : string :=
  "{" +:+ quoted "spec" +:+ ":{" +:+ quoted "ports" +:+ ":[{" +:+ quoted "port"
  +:+ ":5000}]}}".

(** The decoder of the example worlds: [json.loads] on the texts above. *)
Definition example_loads (text : string) : Result json :=
  if String.eqb text (deployment_json "0" "1") then Ok (deployment_value 0 1)
  else if String.eqb text (deployment_json "1" "1") then Ok (deployment_value 1 1)
  else if String.eqb text nodeport_json then
    Ok (JDict [("spec", JDict [("ports",
          JList [JDict [("port", JInt 5000); ("nodePort", JInt 30080)]])])])
  else if String.eqb text clusterip_json then
    Ok (JDict [("spec", JDict [("ports", JList [JDict [("port", JInt 5000)]])])])
  else Raise JSONDecodeError.

(** Commands of the example worlds.  The [n]-th status query (counted
    from 0) prints [dep n]; the service query exits with [svc_rc] and
    prints [svc]; applying [service.yaml] exits with [apply_svc_rc]. *)
Definition example_run (dep : nat -> string) (svc_rc : Z) (svc : string)
  (apply_svc_rc : Z) (h : list Event) (argv : list string)
  : Result CompletedProcess :=
  if argv_eqb argv argv_get_deployment then
    completed 0 (dep (count_events (is_run argv_get_deployment) h))
  else if argv_eqb argv argv_get_svc then completed svc_rc svc
  else if argv_eqb argv ["minikube"; "ip"] then completed 0 ("192.168.49.2" +:+ nl)
  else if argv_eqb argv (argv_apply "service.yaml") then completed apply_svc_rc EmptyString
  else completed 0 EmptyString.

Definition example_world
  (runs : list Event -> list string -> Result CompletedProcess)
  (services : Result (list V1Service))
  (metrics : string -> Result json) : World :=
  {| subprocess_run := runs;
     load_kube_config := fun _ => Ok tt;
     list_namespaced_service := fun _ _ _ => services;
     custom_query := fun _ _ q => metrics q;
     write_file := fun _ _ _ => Ok tt;
     json_loads := example_loads |}.

(** One sample of an instant vector. *)
Definition sample (v : string) : json :=
  JDict [("metric", JDict []); ("value", JList [JInt 1435781451; JStr v])].

(** Answers of a Prometheus that has data for every query but [missing]
    (answered with no series) and [failing] (the query raises). *)
Definition example_metrics (missing failing : string) (q : string) : Result json :=
  if String.eqb q failing then Raise (OtherException "ReadTimeout")
  else if String.eqb q missing then Ok (JList [])
  else if String.eqb q cpu_query then Ok (JList [sample "42.1"; sample "17.0"])
  else if String.eqb q memory_query then Ok (JList [sample "63.0"])
  else if String.eqb q disk_query then Ok (JList [sample "5.3"])
  else if String.eqb q pods_query then Ok (JList [sample "1"; sample "1"; sample "1"])
  else Ok (JList []).

Definition ready_run := example_run (fun _ => deployment_json "1" "1") 0 nodeport_json 0.

(** Ready at once, NodePort service, every metric available. *)
Definition world_ready : World :=
  example_world ready_run (Ok []) (example_metrics "-" "-").

(** Not ready at the first status query, ready from the second on. *)
Definition world_slow : World :=
  example_world
    (example_run (fun n => match n with
                           | O => deployment_json "0" "1"
                           | _ => deployment_json "1" "1"
                           end) 0 nodeport_json 0)
    (Ok []) (example_metrics "-" "-").

(** Ready, but the service is of type ClusterIP: no [nodePort]. *)
Definition world_clusterip : World :=
  example_world (example_run (fun _ => deployment_json "1" "1") 0 clusterip_json 0)
    (Ok []) (example_metrics "-" "-").

(** Ready, but [kubectl get svc] fails (exit status 1). *)
Definition world_no_service : World :=
  example_world (example_run (fun _ => deployment_json "1" "1") 1 EmptyString 0)
    (Ok []) (example_metrics "-" "-").

(** Ready, but [kubectl apply -f service.yaml] exits with status 1. *)
Definition world_service_rejected : World :=
  example_world (example_run (fun _ => deployment_json "1" "1") 0 nodeport_json 1)
    (Ok []) (example_metrics "-" "-").

(** The memory query times out. *)
Definition world_memory_timeout : World :=
  example_world ready_run (Ok []) (example_metrics "-" memory_query).

(** The disk query returns no series. *)
Definition world_no_disk : World :=
  example_world ready_run (Ok []) (example_metrics disk_query "-").

(** The pods query returns no series. *)
Definition world_no_pods : World :=
  example_world ready_run (Ok []) (example_metrics pods_query "-").

(** Worlds for the endpoint resolver. *)
Definition service_with (p : option Z) : V1Service :=
  {| spec := {| ports := [{| node_port := p |}] |} |}.

Definition world_prometheus_nodeport : World :=
  example_world ready_run (Ok [service_with None; service_with (Some 30090)])
    (example_metrics "-" "-").

Definition world_api_down : World :=
  example_world ready_run (Raise ApiException) (example_metrics "-" "-").

Definition monitor : KubernetesMonitor := init "monitoring".

Definition local_prometheus : PrometheusConnect :=
  {| url := fallback_url; disable_ssl := true |}.

(** The monitor after [connect_prometheus] stored a handle. *)
Definition connected_monitor : KubernetesMonitor :=
  {| namespace := "monitoring";
     k8s_config := Some tt;
     prometheus := Some local_prometheus;
     project_files := project_files monitor |}.

(** The answer that the query [q] got in a trace, if it was sent. *)
Fixpoint query_answer (q : string) (es : list Event) : option (Result json) :=
  match es with
  | [] => None
  | ECustomQuery _ q' res :: es' =>
      if String.eqb q' q then Some res else query_answer q es'
  | _ :: es' => query_answer q es'
  end.

(** The answer that the command [argv] got in a trace, if it was run. *)
Fixpoint run_answer (argv : list string) (es : list Event)
  : option (Result CompletedProcess) :=
  match es with
  | [] => None
  | ERun a res :: es' => if argv_eqb a argv then Some res else run_answer argv es'
  | _ :: es' => run_answer argv es'
  end.

(** The answer of the service listing in a trace, if it was asked. *)
Fixpoint services_answer (es : list Event) : option (Result (list V1Service)) :=
  match es with
  | [] => None
  | EListService _ _ res :: _ => Some res
  | _ :: es' => services_answer es'
  end.

(** The dict that [get_prometheus_metrics] builds when nothing raises. *)
Definition snapshot (cpu memory disk pods : json) : gmap string json :=
  <["pods" := pods]> (<["disk" := disk]> (<["memory" := memory]> (<["cpu" := cpu]> ∅))).

(** ** Further observations on a trace *)

(** The commands launched, in order. *)
Fixpoint launched (es : list Event) : list (list string) :=
  match es with
  | [] => []
  | ERun argv _ :: es' => argv :: launched es'
  | _ :: es' => launched es'
  end.

(** The queries sent to Prometheus, in order, each with its handle. *)
Fixpoint queries_sent (es : list Event) : list (PrometheusConnect * string) :=
  match es with
  | [] => []
  | ECustomQuery prom q _ :: es' => (prom, q) :: queries_sent es'
  | _ :: es' => queries_sent es'
  end.

(** The service listings requested, in order: namespace and selector. *)
Fixpoint listings_requested (es : list Event) : list (string * string) :=
  match es with
  | [] => []
  | EListService ns sel _ :: es' => (ns, sel) :: listings_requested es'
  | _ :: es' => listings_requested es'
  end.

(** The commands of a deployment, in the order of the source: lines 112,
    117, 122, 124 of [deploy_application], then lines 175, 191 of
    [check_deployment_status] and line 96 of [get_minikube_ip]. *)
Definition deploy_commands : list (list string) :=
  [argv_docker_build; argv_image_load; argv_apply "deployment.yaml";
   argv_apply "service.yaml"; argv_get_deployment; argv_get_svc; ["minikube"; "ip"]].

(** The queries of a snapshot, in the order of the source. *)
Definition metric_queries : list string :=
  [cpu_query; memory_query; disk_query; pods_query].

(** The world answers the four queries of one snapshot, sent after the
    history [h] in the order of the source, with [r1], [r2], [r3] and
    [r4]: none of them raises. *)
Definition metrics_answered (w : World) (h : list Event) (prom : PrometheusConnect)
  (r1 r2 r3 r4 : json) : Prop :=
  custom_query w h prom cpu_query = Ok r1 /\
  custom_query w (h ++ [ECustomQuery prom cpu_query (Ok r1)]) prom memory_query = Ok r2 /\
  custom_query w (h ++ [ECustomQuery prom cpu_query (Ok r1);
                        ECustomQuery prom memory_query (Ok r2)]) prom disk_query = Ok r3 /\
  custom_query w (h ++ [ECustomQuery prom cpu_query (Ok r1);
                        ECustomQuery prom memory_query (Ok r2);
                        ECustomQuery prom disk_query (Ok r3)]) prom pods_query = Ok r4.

(** A deployment whose status has no [readyReplicas] (no pod is ready
    yet), and one scaled to zero. *)
Definition unready_json (total : string) : string :=
  "{" +:+ quoted "spec" +:+ ":{" +:+ quoted "replicas" +:+ ":" +:+ total +:+ "},"
  +:+ quoted "status" +:+ ":{}}".

Definition unready_value (total : Z) : json :=
  JDict [("spec", JDict [("replicas", JInt total)]); ("status", JDict [])].

Definition unready_loads (text : string) : Result json :=
  if String.eqb text (unready_json "3") then Ok (unready_value 3)
  else example_loads text.

(** The deployment declares 3 replicas and none is ready yet. *)
Definition world_unready : World :=
  {| subprocess_run := example_run (fun _ => unready_json "3") 0 nodeport_json 0;
     load_kube_config := fun _ => Ok tt;
     list_namespaced_service := fun _ _ _ => Ok [];
     custom_query := fun _ _ q => example_metrics "-" "-" q;
     write_file := fun _ _ _ => Ok tt;
     json_loads := unready_loads |}.

(** [kubectl] is not installed: launching it raises. *)
Definition world_no_kubectl : World :=
  example_world
    (fun _ argv =>
       match argv with
       | "kubectl" :: _ => Raise OSError
       | _ => completed 0 EmptyString
       end)
    (Ok []) (example_metrics "-" "-").

(** The first cpu sample has no [value]. *)
Definition world_bad_sample : World :=
  example_world ready_run (Ok [])
    (fun q => if String.eqb q cpu_query
              then Ok (JList [JDict [("metric", JDict [])]])
              else example_metrics "-" "-" q).

(** ** The other methods: setup, build, Grafana and the menu

    [setup_environment], [connect_prometheus], [run_jenkins_build],
    [create_jenkins_script], [create_app_py], [create_requirements],
    [open_grafana], [dashboard] and [main].  They assign to fields of
    [self] and make further calls: [os.path.exists] (which does not
    raise), [os.chmod], the constructor of the Prometheus client (which
    may raise on a malformed URL), [input] (which raises [EOFError],
    here [OtherException "EOFError"], at the end of the input) and
    [webbrowser.open].  The [while True] loop of [dashboard] is run for
    a given number of passes. *)

(** [sub in s] for strings. *)
Fixpoint contains (sub s : string) : bool :=
  String.prefix sub s ||
  match s with
  | String _ s' => contains sub s'
  | EmptyString => false
  end.

(** The lines printed by the remaining methods, each kept as its
    template with the values interpolated into it. *)
Inductive Line :=
| LineStartingMinikube                       (* line 40 *)
| LineEnvironmentReady                       (* line 51 *)
| LineSetupError (e : exn)                   (* line 55 *)
| LinePrometheusConnected (url : string)     (* line 64 *)
| LinePrometheusError (e : exn)              (* line 67 *)
| LineJenkinsStarting                        (* line 252 *)
| LineJenkinsScriptMissing                   (* line 257 *)
| LineOutput (text : string)                 (* line 270: the captured stdout *)
| LineWarnings (text : string)               (* line 272: the captured stderr *)
| LineJenkinsDone                            (* line 274 *)
| LineJenkinsError (e : exn)                 (* line 278 *)
| LineAppCreated                             (* line 369 *)
| LineRequirementsCreated                    (* line 383 *)
| LineRuleAbove                              (* line 389 *)
| LineTitle                                  (* line 390 *)
| LineRuleBelow                              (* line 391 *)
| LineMenu                                   (* line 394 *)
| LineMenuItem (n : nat)                     (* lines 395 to 402: items 1 to 8 *)
| LineCurrentMetrics                         (* line 415 *)
| LineMetric (key : string) (value : json)   (* line 417 *)
| LineBye                                    (* line 434 *)
| LineBadChoice                              (* line 438 *)
| LineGrafanaOpening                         (* line 443 *)
| LineGrafanaUrl (url : string)              (* line 453 *)
| LineGrafanaLogin                           (* line 454 *)
| LineGrafanaPassword                        (* line 455 *)
| LineGrafanaUnavailable                     (* line 461 *)
| LineGrafanaHint                            (* line 462 *)
| LineGrafanaError (e : exn)                 (* line 465 *)
| LineProgramStart                           (* line 470 *)
| LineVersion                                (* line 471 *)
| LineAuthor                                 (* line 472 *)
| LineDashes.                                (* line 473 *)

(** An interaction of the whole program: one of the methods above
    ([Base]), or one of the calls that only the remaining methods make. *)
Inductive Action :=
| Base (e : Event)
| APathExists (path : string) (res : bool)            (* os.path.exists *)
| AChmod (path : string) (mode : Z) (res : Result unit)   (* os.chmod *)
| AConnect (url : string) (res : Result unit)         (* PrometheusConnect(url=..., disable_ssl=True) *)
| AInput (res : Result string)                        (* input(...) *)
| ABrowserOpen (url : string) (res : Result unit)     (* webbrowser.open *)
| ASay (l : Line).

(** The machine the program runs on: the oracles of a [World], now
    seeing every interaction so far, and those of the further calls. *)
Record Host := {
  host_run : list Action -> list string -> Result CompletedProcess;
  host_load_kube_config : list Action -> Result unit;
  host_list_service : list Action -> string -> string -> Result (list V1Service);
  host_custom_query : list Action -> PrometheusConnect -> string -> Result json;
  host_write_file : list Action -> string -> string -> Result unit;
  host_json_loads : string -> Result json;
  host_path_exists : list Action -> string -> bool;
  host_chmod : list Action -> string -> Z -> Result unit;
  host_connect : list Action -> string -> Result unit;
  host_input : list Action -> Result string;
  host_browser_open : list Action -> string -> Result unit
}.

(** The world that a method of the first part sees when it is called
    after the interactions [past]. *)
Definition world_at (H : Host) (past : list Action) : World :=
  {| subprocess_run := fun h argv => host_run H (past ++ map Base h) argv;
     load_kube_config := fun h => host_load_kube_config H (past ++ map Base h);
     list_namespaced_service := fun h ns sel => host_list_service H (past ++ map Base h) ns sel;
     custom_query := fun h prom q => host_custom_query H (past ++ map Base h) prom q;
     write_file := fun h path content => host_write_file H (past ++ map Base h) path content;
     json_loads := host_json_loads H |}.

(** A computation that may also assign to the fields of [self]: it
    yields its result or exception, the monitor afterwards, and the
    interactions it made. *)
Definition P (A : Type) : Type :=
  Host -> list Action -> KubernetesMonitor -> Result A * KubernetesMonitor * list Action.

Definition retP {A} (a : A) : P A := fun _ _ self => (Ok a, self, []).

Definition bindP {A B} (m : P A) (k : A -> P B) : P B := fun H past self =>
  match m H past self with
  | (Ok a, self1, acts) =>
      let '(r, self2, acts') := k a H (past ++ acts) self1 in (r, self2, acts ++ acts')
  | (Raise e, self1, acts) => (Raise e, self1, acts)
  end.

(** [try: body / except Exception as e: handler]; assignments made
    before the exception stay. *)
Definition tryP {A} (body : P A) (handler : exn -> P A) : P A := fun H past self =>
  match body H past self with
  | (Ok a, self1, acts) => (Ok a, self1, acts)
  | (Raise e, self1, acts) =>
      let '(r, self2, acts') := handler e H (past ++ acts) self1 in (r, self2, acts ++ acts')
  end.

Declare Scope host_scope.
Delimit Scope host_scope with host.
Notation "x <- m ;; k" := (bindP m (fun x => k))
  (at level 100, m at next level, right associativity) : host_scope.
Notation "m ;; k" := (bindP m (fun _ => k))
  (at level 100, right associativity) : host_scope.

(** A call of a method of the first part on the current monitor. *)
Definition method {A} (m : KubernetesMonitor -> M A) : P A := fun H past self =>
  let '(r, es) := m self (world_at H past) [] in (r, self, map Base es).

Definition say (l : Line) : P unit := fun _ _ self => (Ok tt, self, [ASay l]).

Definition runP (argv : list string) : P CompletedProcess := fun H past self =>
  let r := host_run H past argv in (r, self, [Base (ERun argv r)]).

Definition kube_configP : P unit := fun H past self =>
  let r := host_load_kube_config H past in (r, self, [Base (ELoadKubeConfig r)]).

Definition writeP (path content : string) : P unit := fun H past self =>
  let r := host_write_file H past path content in (r, self, [Base (EWriteFile path content r)]).

Definition path_exists (path : string) : P bool := fun H past self =>
  let r := host_path_exists H past path in (Ok r, self, [APathExists path r]).

Definition chmod (path : string) (mode : Z) : P unit := fun H past self =>
  let r := host_chmod H past path mode in (r, self, [AChmod path mode r]).

Definition input : P string := fun H past self =>
  let r := host_input H past in (r, self, [AInput r]).

Definition browser_open (u : string) : P unit := fun H past self =>
  let r := host_browser_open H past u in (r, self, [ABrowserOpen u r]).

(** [self.prometheus = PrometheusConnect(url=u, disable_ssl=True)]: the
    constructor may raise, and then nothing is assigned. *)
Definition assign_prometheus (u : string) : P unit := fun H past self =>
  match host_connect H past u with
  | Ok _ =>
      (Ok tt,
       {| namespace := namespace self;
          k8s_config := k8s_config self;
          prometheus := Some {| url := u; disable_ssl := true |};
          project_files := project_files self |},
       [AConnect u (Ok tt)])
  | Raise e => (Raise e, self, [AConnect u (Raise e)])
  end.

(** [self.k8s_config = client.Configuration()] *)
Definition assign_k8s_config : P unit := fun _ _ self =>
  (Ok tt,
   {| namespace := namespace self;
      k8s_config := Some tt;
      prometheus := prometheus self;
      project_files := project_files self |},
   []).

(** [connect_prometheus] *)
Definition connect_prometheus : P bool :=
  tryP
    (prometheus_url <- method get_prometheus_url ;;
     assign_prometheus prometheus_url ;;
     say (LinePrometheusConnected prometheus_url) ;;
     retP true)%host
    (fun e => say (LinePrometheusError e) ;; retP false)%host.

Definition argv_minikube_status : list string := ["minikube"; "status"].
Definition argv_minikube_start : list string :=
  ["minikube"; "start"; "--memory=4096"; "--cpus=2"].

(** [setup_environment] *)
Definition setup_environment : P bool :=
  tryP
    (result <- runP argv_minikube_status ;;
     (if negb (contains "Running" (stdout result)) then
        (say LineStartingMinikube ;;
         runP argv_minikube_start ;;
         retP tt)
      else retP tt) ;;
     kube_configP ;;
     assign_k8s_config ;;
     connect_prometheus ;;
     say LineEnvironmentReady ;;
     retP true)%host
    (fun e => say (LineSetupError e) ;; retP false)%host.

Definition script_content : string :=
  String.concat nl
    [ "#!/bin/bash";
      "# Улучшенный скрипт Jenkins сборки";
      EmptyString;
      "echo " +:+ dq +:+ "=== Шаг 1: Сборка Docker-образа ===" +:+ dq;
      "docker build -t my-docker-app:latest .";
      EmptyString;
      "echo " +:+ dq +:+ "=== Шаг 2: Загрузка в Minikube ===" +:+ dq;
      "minikube image load my-docker-app:latest";
      EmptyString;
      "echo " +:+ dq +:+ "=== Шаг 3: Проверка образа ===" +:+ dq;
      "docker images | grep my-docker-app";
      EmptyString;
      "echo " +:+ dq +:+ "=== Шаг 4: Развертывание в Kubernetes ===" +:+ dq;
      "kubectl apply -f deployment.yaml";
      "kubectl apply -f service.yaml";
      EmptyString;
      "echo " +:+ dq +:+ "=== Шаг 5: Проверка статуса ===" +:+ dq;
      "kubectl get deployment my-docker-app";
      "kubectl get svc my-docker-service";
      EmptyString;
      "echo " +:+ dq +:+ "✅ Сборка и развертывание завершены!" +:+ dq;
      EmptyString ].

Definition app_content : string :=
  String.concat nl
    [ "from flask import Flask, jsonify";
      "import psutil";
      "import socket";
      "from datetime import datetime";
      EmptyString;
      "app = Flask(__name__)";
      EmptyString;
      "@app.route('/')";
      "def home():";
      "    return '''";
      "    <h1>Kubernetes Monitoring App</h1>";
      "    <p>Доступные endpoints:</p>";
      "    <ul>";
      "        <li><a href=" +:+ dq +:+ "/health" +:+ dq +:+ ">/health</a> - Статус приложения</li>";
      "        <li><a href=" +:+ dq +:+ "/metrics" +:+ dq +:+ ">/metrics</a> - Системные метрики</li>";
      "        <li><a href=" +:+ dq +:+ "/info" +:+ dq +:+ ">/info</a> - Информация о системе</li>";
      "    </ul>";
      "    '''";
      EmptyString;
      "@app.route('/health')";
      "def health():";
      "    return jsonify({";
      "        'status': 'healthy',";
      "        'timestamp': datetime.now().isoformat(),";
      "        'hostname': socket.gethostname()";
      "    })";
      EmptyString;
      "@app.route('/metrics')";
      "def metrics():";
      "    cpu = psutil.cpu_percent(interval=1)";
      "    memory = psutil.virtual_memory()";
      "    disk = psutil.disk_usage('/')";
      EmptyString;
      "    return jsonify({";
      "        'cpu_percent': cpu,";
      "        'memory_percent': memory.percent,";
      "        'memory_available_gb': round(memory.available / (1024**3), 2),";
      "        'disk_percent': disk.percent,";
      "        'disk_free_gb': round(disk.free / (1024**3), 2)";
      "    })";
      EmptyString;
      "@app.route('/info')";
      "def info():";
      "    return jsonify({";
      "        'system': socket.gethostname(),";
      "        'platform': psutil.os.name,";
      "        'python_version': psutil.__version__,";
      "        'cores': psutil.cpu_count(),";
      "        'total_memory_gb': round(psutil.virtual_memory().total / (1024**3), 2)";
      "    })";
      EmptyString;
      "if __name__ == '__main__':";
      "    app.run(host='0.0.0.0', port=5000, debug=False)";
      EmptyString ].

Definition requirements : string :=
  String.concat nl
    [ "Flask==2.3.3";
      "psutil==5.9.5";
      "prometheus-api-client==0.5.1";
      "kubernetes==26.1.0";
      "pyyaml==6.0";
      "requests==2.31.0" ].

(** [create_jenkins_script] *)
Definition create_jenkins_script : P unit :=
  writeP "jenkins-build.sh" script_content.

(** [create_app_py] *)
Definition create_app_py : P unit :=
  (writeP "app.py" app_content ;;
   say LineAppCreated)%host.

(** [create_requirements] *)
Definition create_requirements : P unit :=
  (writeP "requirements.txt" requirements ;;
   say LineRequirementsCreated)%host.

Definition argv_jenkins : list string := ["bash"; "jenkins-build.sh"].

(** [run_jenkins_build]; 0o755 is 493. *)
Definition run_jenkins_build : P bool :=
  (say LineJenkinsStarting ;;
   tryP
     (present <- path_exists "jenkins-build.sh" ;;
      (if negb present then
         (say LineJenkinsScriptMissing ;;
          create_jenkins_script)
       else retP tt) ;;
      chmod "jenkins-build.sh" 493 ;;
      result <- runP argv_jenkins ;;
      say (LineOutput (stdout result)) ;;
      (if negb (String.eqb (stderr result) EmptyString) then
         say (LineWarnings (stderr result))
       else retP tt) ;;
      say LineJenkinsDone ;;
      retP (returncode result =? 0))
     (fun e => say (LineJenkinsError e) ;; retP false))%host.

Definition argv_grafana : list string :=
  ["minikube"; "service"; "--url"; "-n"; "monitoring"; "prometheus-grafana"].

(** [open_grafana] *)
Definition open_grafana : P unit :=
  tryP
    (say LineGrafanaOpening ;;
     result <- runP argv_grafana ;;
     if returncode result =? 0 then
       (let u := strip (stdout result) in
        say (LineGrafanaUrl u) ;;
        say LineGrafanaLogin ;;
        say LineGrafanaPassword ;;
        browser_open u)
     else
       (say LineGrafanaUnavailable ;;
        say LineGrafanaHint))%host
    (fun e => say (LineGrafanaError e)).

(** [metrics.items()]: the dict of [get_prometheus_metrics] gets its
    keys in the order cpu, memory, disk, pods, and that is the order in
    which a Python dict is traversed. *)
Definition metric_items (metrics : gmap string json) : list (string * json) :=
  omap (fun key => match metrics !! key with
                   | Some value => Some (key, value)
                   | None => None
                   end)
       ["cpu"; "memory"; "disk"; "pods"].

(** The [for key, value in metrics.items()] loop of the menu. *)
Fixpoint say_metrics (items : list (string * json)) : P unit :=
  match items with
  | [] => retP tt
  | (key, value) :: rest => (say (LineMetric key value) ;; say_metrics rest)%host
  end.

(** One pass through the [if]/[elif] chain of [dashboard], for the
    choice read; [true] stands for [break]. *)
Definition dashboard_choice (choice : string) : P bool :=
  (if String.eqb choice "1" then
     (setup_environment ;; retP false)
   else if String.eqb choice "2" then
     (method deploy_application ;; retP false)
   else if String.eqb choice "3" then
     (metrics <- method get_prometheus_metrics ;;
      (if negb (Nat.eqb (size metrics) 0) then
         (say LineCurrentMetrics ;;
          say_metrics (metric_items metrics))
       else retP tt) ;;
      retP false)
   else if String.eqb choice "4" then
     (run_jenkins_build ;; retP false)
   else if String.eqb choice "5" then
     (method check_deployment_status ;; retP false)
   else if String.eqb choice "6" then
     (create_app_py ;;
      create_requirements ;;
      create_jenkins_script ;;
      retP false)
   else if String.eqb choice "7" then
     (open_grafana ;; retP false)
   else if String.eqb choice "8" then
     (say LineBye ;; retP true)
   else
     (say LineBadChoice ;; retP false))%host.

(** The [while True] loop of [dashboard], run for at most [fuel]
    passes; [None] when the passes are used up before a [break]. *)
Fixpoint dashboard_loop (fuel : nat) : P (option unit) :=
  match fuel with
  | O => retP None
  | S fuel' =>
      (say LineMenu ;;
       say (LineMenuItem 1) ;;
       say (LineMenuItem 2) ;;
       say (LineMenuItem 3) ;;
       say (LineMenuItem 4) ;;
       say (LineMenuItem 5) ;;
       say (LineMenuItem 6) ;;
       say (LineMenuItem 7) ;;
       say (LineMenuItem 8) ;;
       line <- input ;;
       stop <- dashboard_choice (strip line) ;;
       if (stop : bool) then retP (Some tt) else dashboard_loop fuel')%host
  end.

(** [dashboard] *)
Definition dashboard (fuel : nat) : P (option unit) :=
  (say LineRuleAbove ;;
   say LineTitle ;;
   say LineRuleBelow ;;
   dashboard_loop fuel)%host.

(** [main]: the program starts from a new monitor. *)
Definition main (fuel : nat) (H : Host) (past : list Action)
  : Result (option unit) * KubernetesMonitor * list Action :=
  (say LineProgramStart ;;
   say LineVersion ;;
   say LineAuthor ;;
   say LineDashes ;;
   dashboard fuel)%host H past (init "monitoring").

(** ** Observations on the interactions of the program *)

(** The commands launched, in order. *)
Fixpoint commands (acts : list Action) : list (list string) :=
  match acts with
  | [] => []
  | Base (ERun argv _) :: acts' => argv :: commands acts'
  | _ :: acts' => commands acts'
  end.

(** The answer that the command [argv] got, if it was run. *)
Fixpoint command_answer (argv : list string) (acts : list Action)
  : option (Result CompletedProcess) :=
  match acts with
  | [] => None
  | Base (ERun a res) :: acts' =>
      if argv_eqb a argv then Some res else command_answer argv acts'
  | _ :: acts' => command_answer argv acts'
  end.

(** The files written, in order. *)
Fixpoint files_written (acts : list Action) : list string :=
  match acts with
  | [] => []
  | Base (EWriteFile path _ _) :: acts' => path :: files_written acts'
  | _ :: acts' => files_written acts'
  end.

(** The lines typed by the user, in order. *)
Fixpoint inputs_read (acts : list Action) : list string :=
  match acts with
  | [] => []
  | AInput (Ok line) :: acts' => line :: inputs_read acts'
  | _ :: acts' => inputs_read acts'
  end.

(** The URLs handed to the browser, in order. *)
Fixpoint browser_opened (acts : list Action) : list string :=
  match acts with
  | [] => []
  | ABrowserOpen u _ :: acts' => u :: browser_opened acts'
  | _ :: acts' => browser_opened acts'
  end.

(** A query to Prometheus was sent. *)
Definition is_metric_query (a : Action) : bool :=
  match a with
  | Base (ECustomQuery _ _ _) => true
  | _ => false
  end.

(** ** Example hosts *)

(** A machine where every command succeeds and prints [out argv], the
    script exists when [script_present], and the user types [typed]
    line by line (end of input after the last line). *)
Definition typed_line (typed : list string) (past : list Action) : Result string :=
  match nth_error typed (length (inputs_read past)) with
  | Some line => Ok line
  | None => Raise (OtherException "EOFError")
  end.

Definition example_host (out : list string -> string) (rc : list string -> Z)
  (script_present : bool) (typed : list string) : Host :=
  {| host_run := fun _ argv =>
       Ok {| returncode := rc argv; stdout := out argv; stderr := EmptyString |};
     host_load_kube_config := fun _ => Ok tt;
     host_list_service := fun _ _ _ => Ok [];
     host_custom_query := fun _ _ q => example_metrics "-" "-" q;
     host_write_file := fun _ _ _ => Ok tt;
     host_json_loads := example_loads;
     host_path_exists := fun _ _ => script_present;
     host_chmod := fun _ _ _ => Ok tt;
     host_connect := fun _ _ => Ok tt;
     host_input := typed_line typed;
     host_browser_open := fun _ _ => Ok tt |}.

(** What the commands print on a machine with a running cluster. *)
Definition running_out (argv : list string) : string :=
  if argv_eqb argv argv_minikube_status then "host: Running" +:+ nl
  else if argv_eqb argv argv_grafana then "http://192.168.49.2:31234" +:+ nl
  else if argv_eqb argv argv_get_deployment then deployment_json "1" "1"
  else if argv_eqb argv argv_get_svc then nodeport_json
  else if argv_eqb argv ["minikube"; "ip"] then "192.168.49.2" +:+ nl
  else EmptyString.

Definition all_succeed (argv : list string) : Z := 0.

Definition grafana_fails (argv : list string) : Z :=
  if argv_eqb argv argv_grafana then 1 else 0.

Definition jenkins_fails (argv : list string) : Z :=
  if argv_eqb argv argv_jenkins then 2 else 0.

(** The cluster is stopped: [minikube status] does not say Running. *)
Definition stopped_out (argv : list string) : string :=
  if argv_eqb argv argv_minikube_status then "host: Stopped" +:+ nl
  else running_out argv.

(** The answers of the Prometheus client constructor, in order. *)
Fixpoint connect_answers (acts : list Action) : list (string * Result unit) :=
  match acts with
  | [] => []
  | AConnect u res :: acts' => (u, res) :: connect_answers acts'
  | _ :: acts' => connect_answers acts'
  end.

(** The answer to the first load of the kube config, if any. *)
Fixpoint kube_config_answer (acts : list Action) : option (Result unit) :=
  match acts with
  | [] => None
  | Base (ELoadKubeConfig res) :: _ => Some res
  | _ :: acts' => kube_config_answer acts'
  end.

(** The answers of [os.path.exists], in order. *)
Fixpoint exists_answers (acts : list Action) : list (string * bool) :=
  match acts with
  | [] => []
  | APathExists path res :: acts' => (path, res) :: exists_answers acts'
  | _ :: acts' => exists_answers acts'
  end.

(** The monitor with a new Prometheus handle. *)
Definition with_prometheus (self : KubernetesMonitor) (u : string) : KubernetesMonitor :=
  {| namespace := namespace self;
     k8s_config := k8s_config self;
     prometheus := Some {| url := u; disable_ssl := true |};
     project_files := project_files self |}.

(** A machine on which the Prometheus client cannot be constructed. *)
Definition host_without_client (typed : list string) : Host :=
  {| host_run := fun _ argv =>
       Ok {| returncode := 0; stdout := running_out argv; stderr := EmptyString |};
     host_load_kube_config := fun _ => Ok tt;
     host_list_service := fun _ _ _ => Ok [];
     host_custom_query := fun _ _ q => example_metrics "-" "-" q;
     host_write_file := fun _ _ _ => Ok tt;
     host_json_loads := example_loads;
     host_path_exists := fun _ _ => true;
     host_chmod := fun _ _ _ => Ok tt;
     host_connect := fun _ _ => Raise (OtherException "ValueError");
     host_input := typed_line typed;
     host_browser_open := fun _ _ => Ok tt |}.

(** The menu, as each pass of the loop prints it (lines 394 to 402). *)
Definition menu_lines : list Action :=
  [ASay LineMenu; ASay (LineMenuItem 1); ASay (LineMenuItem 2); ASay (LineMenuItem 3);
   ASay (LineMenuItem 4); ASay (LineMenuItem 5); ASay (LineMenuItem 6);
   ASay (LineMenuItem 7); ASay (LineMenuItem 8)].

(** The banner of [dashboard] (lines 389 to 391) and the lines that
    [main] prints first (lines 470 to 473). *)
Definition banner_lines : list Action :=
  [ASay LineRuleAbove; ASay LineTitle; ASay LineRuleBelow].

Definition program_lines : list Action :=
  [ASay LineProgramStart; ASay LineVersion; ASay LineAuthor; ASay LineDashes].

(** The files of menu item 6, in the order of the source. *)
Definition created_files : list string :=
  ["app.py"; "requirements.txt"; "jenkins-build.sh"].

(** A machine whose disk is full: every write raises. *)
Definition host_disk_full (typed : list string) : Host :=
  {| host_run := fun _ argv =>
       Ok {| returncode := 0; stdout := running_out argv; stderr := EmptyString |};
     host_load_kube_config := fun _ => Ok tt;
     host_list_service := fun _ _ _ => Ok [];
     host_custom_query := fun _ _ q => example_metrics "-" "-" q;
     host_write_file := fun _ _ _ => Raise OSError;
     host_json_loads := example_loads;
     host_path_exists := fun _ _ => true;
     host_chmod := fun _ _ _ => Ok tt;
     host_connect := fun _ _ => Ok tt;
     host_input := typed_line typed;
     host_browser_open := fun _ _ => Ok tt |}.

(** What menu item 6 has done once [app.py], and then
    [requirements.txt], is written. *)
Definition app_written : list Action :=
  [Base (EWriteFile "app.py" app_content (Ok tt)); ASay LineAppCreated].

Definition requirements_written : list Action :=
  [Base (EWriteFile "requirements.txt" requirements (Ok tt)); ASay LineRequirementsCreated].

(** * Properties *)

Ltac unfold_m :=
  unfold try_except, bind, run, print, lift, loads, ret, kube_config,
    list_service, query, write in *.

(** Case analysis on the next answer of the world or of a pure step. *)
Ltac case_step :=
  match goal with
  | |- context [match ?x with _ => _ end] =>
      lazymatch x with
      | context [match _ with _ => _ end] => fail
      | _ => destruct x eqn:?
      end
  end.

Ltac run_cases := unfold_m; repeat (cbn in *; case_step); cbn in *.


Lemma count_events_app p es es' :
  count_events p (es ++ es') = (count_events p es + count_events p es')%nat.
Proof. unfold count_events. rewrite List.filter_app. apply length_app. Qed.

(** ** The metrics aggregator *)

(** The four queries are pairwise different texts. *)
Lemma query_eqb_refl q : String.eqb q q = true.
Proof. apply String.eqb_refl. Qed.

Lemma cpu_memory_eqb : String.eqb cpu_query memory_query = false.
Proof. reflexivity. Qed.

Lemma cpu_disk_eqb : String.eqb cpu_query disk_query = false.
Proof. reflexivity. Qed.

Lemma cpu_pods_eqb : String.eqb cpu_query pods_query = false.
Proof. reflexivity. Qed.

Lemma memory_disk_eqb : String.eqb memory_query disk_query = false.
Proof. reflexivity. Qed.

Lemma memory_pods_eqb : String.eqb memory_query pods_query = false.
Proof. reflexivity. Qed.

Lemma disk_pods_eqb : String.eqb disk_query pods_query = false.
Proof. reflexivity. Qed.

Create Rewrite HintDb queries.
#[local] Hint Rewrite query_eqb_refl cpu_memory_eqb cpu_disk_eqb cpu_pods_eqb
  memory_disk_eqb memory_pods_eqb disk_pods_eqb : queries.

Ltac metrics_simpl :=
  cbn -[String.eqb first_sample_or_na count_or_zero lookup insert
        cpu_query memory_query disk_query pods_query] in *;
  autorewrite with queries in *.

Ltac metrics_cases :=
  unfold get_prometheus_metrics; unfold_m;
  repeat (metrics_simpl; case_step); metrics_simpl.

Ltac empty_has_no_field :=
  match goal with
  | H : is_Some (∅ !! _) |- _ => rewrite lookup_empty in H; destruct H; discriminate
  end.

Lemma first_sample_or_na_no_series : first_sample_or_na (JList []) = Ok (JStr "N/A").
Proof. reflexivity. Qed.

Lemma first_sample_or_na_series s rest :
  first_sample_or_na (JList (s :: rest)) = sample_value s.
Proof.
  unfold first_sample_or_na, sample_value. cbn.
  destruct (getitem_str s "value"); reflexivity.
Qed.

Lemma count_or_zero_no_series : count_or_zero (JList []) = Ok (JInt 0).
Proof. reflexivity. Qed.

Ltac no_series :=
  repeat match goal with
    | H : first_sample_or_na (JList []) = _ |- _ =>
        rewrite first_sample_or_na_no_series in H
    | H : count_or_zero (JList []) = _ |- _ =>
        rewrite count_or_zero_no_series in H
    end;
  simplify_eq.

(** The aggregator never raises: every exception ends in the handler. *)
Lemma get_prometheus_metrics_total self w h :
  exists m, fst (get_prometheus_metrics self w h) = Ok m.
Proof.
  unfold get_prometheus_metrics.
  destruct (prometheus self) as [prom|].
  - metrics_cases; eauto.
  - cbn. eauto.
Qed.

(** C2, what the code does not do: in [world_memory_timeout] the cpu
    query returns its sample and only the memory query fails, yet the
    snapshot is the empty dict, and the disk and pods queries are never
    sent. *)
Lemma one_failed_query_empties_snapshot :
  get_prometheus_metrics connected_monitor world_memory_timeout [] =
    (Ok ∅,
     [ECustomQuery local_prometheus cpu_query (Ok (JList [sample "42.1"; sample "17.0"]));
      ECustomQuery local_prometheus memory_query (Raise (OtherException "ReadTimeout"));
      EPrint (MsgMetricsError (OtherException "ReadTimeout"))]).
Proof. vm_compute. reflexivity. Qed.

(** C2 (amended): a query that raises makes the whole snapshot the empty
    dict; when the four queries are answered and the four fields can be
    read, each field of the snapshot comes from its own query alone, so a
    query without series leaves the other three fields in place. *)
Theorem metrics_snapshot_all_or_nothing self w h prom :
  prometheus self = Some prom ->
  (forall q e,
      query_answer q (snd (get_prometheus_metrics self w h)) = Some (Raise e) ->
      fst (get_prometheus_metrics self w h) = Ok ∅) /\
  (forall r1 r2 r3 r4 v1 v2 v3 v4,
      query_answer cpu_query (snd (get_prometheus_metrics self w h)) = Some (Ok r1) ->
      query_answer memory_query (snd (get_prometheus_metrics self w h)) = Some (Ok r2) ->
      query_answer disk_query (snd (get_prometheus_metrics self w h)) = Some (Ok r3) ->
      query_answer pods_query (snd (get_prometheus_metrics self w h)) = Some (Ok r4) ->
      first_sample_or_na r1 = Ok v1 ->
      first_sample_or_na r2 = Ok v2 ->
      first_sample_or_na r3 = Ok v3 ->
      count_or_zero r4 = Ok v4 ->
      fst (get_prometheus_metrics self w h) = Ok (snapshot v1 v2 v3 v4)).
Proof.
  intros Hp. split.
  - intros q e. revert Hp. metrics_cases; intros Hp Hq; try reflexivity.
    all: repeat case_match; congruence.
  - intros r1 r2 r3 r4 v1 v2 v3 v4. revert Hp.
    metrics_cases; intros; simplify_eq; try congruence.
    all: unfold snapshot; congruence.
Qed.

Lemma metrics_snapshot_all_or_nothing_witness :
  prometheus connected_monitor = Some local_prometheus /\
  fst (get_prometheus_metrics connected_monitor world_no_disk []) =
    Ok (snapshot (JStr "42.1") (JStr "63.0") (JStr "N/A") (JInt 3)).
Proof.
  split; [reflexivity |].
  apply (proj2 (metrics_snapshot_all_or_nothing connected_monitor world_no_disk []
                  local_prometheus eq_refl)
           (JList [sample "42.1"; sample "17.0"]) (JList [sample "63.0"]) (JList [])
           (JList [sample "1"; sample "1"; sample "1"]));
    vm_compute; reflexivity.
Defined.

(** C4, what the code does not do: in [world_no_pods] the pods query
    returns no series and the [pods] field is the number 0, not the
    marker that the three percentage fields get. *)
Lemma empty_pods_result_reads_zero :
  query_answer pods_query (snd (get_prometheus_metrics connected_monitor world_no_pods []))
    = Some (Ok (JList [])) /\
  fst (get_prometheus_metrics connected_monitor world_no_pods []) =
    Ok (snapshot (JStr "42.1") (JStr "63.0") (JStr "5.3") (JInt 0)).
Proof. split; vm_compute; reflexivity. Qed.

(** C4 (amended): in a snapshot that has its fields, a cpu, memory or
    disk query that returned no series reads ["N/A"], never a number;
    a pods query that returned no series reads the number 0. *)
Theorem no_series_marker self w h prom m :
  prometheus self = Some prom ->
  fst (get_prometheus_metrics self w h) = Ok m ->
  (forall name q,
      In (name, q) numeric_queries ->
      query_answer q (snd (get_prometheus_metrics self w h)) = Some (Ok (JList [])) ->
      is_Some (m !! name) ->
      m !! name = Some (JStr "N/A")) /\
  (query_answer pods_query (snd (get_prometheus_metrics self w h)) = Some (Ok (JList [])) ->
   is_Some (m !! "pods") ->
   m !! "pods" = Some (JInt 0)).
Proof.
  intros Hp. split.
  - intros name q Hin. revert Hp H.
    destruct Hin as [E | [E | [E | []]]]; inversion E; subst name q; clear E.
    all: metrics_cases; intros; simplify_eq; try empty_has_no_field.
    all: no_series; simplify_map_eq; reflexivity.
  - revert Hp H.
    metrics_cases; intros; simplify_eq; try empty_has_no_field.
    all: no_series; simplify_map_eq; reflexivity.
Qed.

Lemma no_series_marker_witness :
  prometheus connected_monitor = Some local_prometheus /\
  fst (get_prometheus_metrics connected_monitor world_no_disk []) =
    Ok (snapshot (JStr "42.1") (JStr "63.0") (JStr "N/A") (JInt 3)) /\
  snapshot (JStr "42.1") (JStr "63.0") (JStr "N/A") (JInt 3) !! "disk" = Some (JStr "N/A").
Proof.
  assert (Hm : fst (get_prometheus_metrics connected_monitor world_no_disk []) =
               Ok (snapshot (JStr "42.1") (JStr "63.0") (JStr "N/A") (JInt 3)))
    by (vm_compute; reflexivity).
  split; [reflexivity | split; [exact Hm |]].
  apply (proj1 (no_series_marker connected_monitor world_no_disk [] local_prometheus
                  _ eq_refl Hm) "disk" disk_query).
  - right; right; left; reflexivity.
  - vm_compute; reflexivity.
  - exists (JStr "N/A"). vm_compute; reflexivity.
Defined.

(** When the world answers the four queries and the four fields can be
    read, the snapshot is made of exactly these four values. *)
Lemma get_prometheus_metrics_answered self w h prom r1 r2 r3 r4 v1 v2 v3 v4 :
  prometheus self = Some prom ->
  metrics_answered w h prom r1 r2 r3 r4 ->
  first_sample_or_na r1 = Ok v1 ->
  first_sample_or_na r2 = Ok v2 ->
  first_sample_or_na r3 = Ok v3 ->
  count_or_zero r4 = Ok v4 ->
  fst (get_prometheus_metrics self w h) = Ok (snapshot v1 v2 v3 v4).
Proof.
  intros Hp (H1 & H2 & H3 & H4) Hv1 Hv2 Hv3 Hv4.
  unfold get_prometheus_metrics. rewrite Hp. unfold_m.
  metrics_simpl. rewrite H1. metrics_simpl. rewrite Hv1. metrics_simpl.
  rewrite ?app_nil_r, <- ?app_assoc. metrics_simpl.
  rewrite H2. metrics_simpl. rewrite Hv2. metrics_simpl.
  rewrite ?app_nil_r, <- ?app_assoc. metrics_simpl.
  rewrite H3. metrics_simpl. rewrite Hv3. metrics_simpl.
  rewrite ?app_nil_r, <- ?app_assoc. metrics_simpl.
  rewrite H4. metrics_simpl. rewrite Hv4. metrics_simpl.
  reflexivity.
Qed.

(** C9, what the code does not do: in [world_memory_timeout] the cpu
    query returns two samples, the first with the value 42.1, and then
    the memory query raises; the snapshot returned has no [cpu] field at
    all. *)
Lemma first_sample_lost_when_later_query_raises :
  query_answer cpu_query
    (snd (get_prometheus_metrics connected_monitor world_memory_timeout []))
    = Some (Ok (JList [sample "42.1"; sample "17.0"])) /\
  exists m,
    fst (get_prometheus_metrics connected_monitor world_memory_timeout []) = Ok m /\
    m !! "cpu" = None.
Proof.
  split; [vm_compute; reflexivity |].
  exists ∅. split; [vm_compute; reflexivity | apply lookup_empty].
Qed.

(** C9 (amended): when the world answers the four queries of a snapshot
    without raising and the four fields can be read, every cpu, memory
    or disk query whose result is a non-empty sequence puts the value of
    its first sample, and nothing computed from the other samples, into
    its field of the snapshot. *)
Theorem metrics_first_sample_when_answered self w h prom r1 r2 r3 r4 v1 v2 v3 v4 :
  prometheus self = Some prom ->
  metrics_answered w h prom r1 r2 r3 r4 ->
  first_sample_or_na r1 = Ok v1 ->
  first_sample_or_na r2 = Ok v2 ->
  first_sample_or_na r3 = Ok v3 ->
  count_or_zero r4 = Ok v4 ->
  exists m,
    fst (get_prometheus_metrics self w h) = Ok m /\
    forall name r v,
      In (name, r, v) [("cpu", r1, v1); ("memory", r2, v2); ("disk", r3, v3)] ->
      forall s rest, r = JList (s :: rest) ->
                     sample_value s = Ok v /\ m !! name = Some v.
Proof.
  intros Hp Hw Hv1 Hv2 Hv3 Hv4.
  exists (snapshot v1 v2 v3 v4). split.
  - apply (get_prometheus_metrics_answered self w h prom r1 r2 r3 r4); assumption.
  - intros name r v Hin s rest Hr.
    destruct Hin as [E | [E | [E | []]]]; inversion E; subst name r v; clear E.
    all: rewrite <- (first_sample_or_na_series s rest).
    all: split; [congruence | unfold snapshot; simplify_map_eq; reflexivity].
Qed.

Lemma metrics_first_sample_when_answered_witness :
  prometheus connected_monitor = Some local_prometheus /\
  exists m,
    fst (get_prometheus_metrics connected_monitor world_ready []) = Ok m /\
    m !! "cpu" = Some (JStr "42.1") /\
    m !! "memory" = Some (JStr "63.0") /\
    m !! "disk" = Some (JStr "5.3").
Proof.
  split; [reflexivity |].
  destruct (metrics_first_sample_when_answered connected_monitor world_ready []
              local_prometheus
              (JList [sample "42.1"; sample "17.0"]) (JList [sample "63.0"])
              (JList [sample "5.3"]) (JList [sample "1"; sample "1"; sample "1"])
              (JStr "42.1") (JStr "63.0") (JStr "5.3") (JInt 3))
    as [m [Hm Hfields]]; try reflexivity.
  - repeat split; vm_compute; reflexivity.
  - exists m. split; [exact Hm |].
    split; [| split].
    + apply (Hfields "cpu" _ _ (or_introl eq_refl) (sample "42.1") [sample "17.0"] eq_refl).
    + apply (Hfields "memory" _ _ (or_intror (or_introl eq_refl)) (sample "63.0") [] eq_refl).
    + apply (Hfields "disk" _ _ (or_intror (or_intror (or_introl eq_refl)))
               (sample "5.3") [] eq_refl).
Defined.

(** C10: with the Prometheus handle unset, [get_prometheus_metrics]
    sends no query, prints its warning and returns the empty dict. *)
Theorem metrics_without_prometheus self w h :
  prometheus self = None ->
  get_prometheus_metrics self w h = (Ok ∅, [EPrint MsgPrometheusNotConnected]) /\
  count_events is_custom_query (snd (get_prometheus_metrics self w h)) = 0%nat.
Proof.
  intros Hp. unfold get_prometheus_metrics. rewrite Hp. split; reflexivity.
Qed.

Lemma metrics_without_prometheus_witness :
  prometheus (init "monitoring") = None /\
  get_prometheus_metrics (init "monitoring") world_ready [] =
    (Ok ∅, [EPrint MsgPrometheusNotConnected]).
Proof.
  split; [reflexivity |].
  apply (metrics_without_prometheus (init "monitoring") world_ready []). reflexivity.
Defined.

(** ** The status check *)

(** [get_minikube_ip] launches one command and never raises. *)
Lemma get_minikube_ip_answer self w h :
  get_minikube_ip self w h =
    (Ok (node_address (subprocess_run w h ["minikube"; "ip"])),
     [ERun ["minikube"; "ip"] (subprocess_run w h ["minikube"; "ip"])]).
Proof.
  unfold get_minikube_ip. unfold_m.
  destruct (subprocess_run w h ["minikube"; "ip"]); reflexivity.
Qed.

Ltac check_cases :=
  unfold check_deployment_status, spec_poller, spec_poll, get_minikube_ip in *;
  run_cases.

(** The status check never raises. *)
Lemma check_deployment_status_total self w h :
  exists b, fst (check_deployment_status self w h) = Ok b.
Proof. check_cases; eauto. Qed.

(** The budget of the specified poller bounds its status queries. *)
Lemma spec_poller_bounded B : forall w h,
  (count_events (is_run argv_get_deployment) (snd (spec_poller B w h)) <= B)%nat.
Proof.
  induction B as [|B IH]; intros w h; [cbn; lia |].
  cbn [spec_poller]. unfold bind at 1.
  destruct (spec_poll w h) as [[[]|e] es] eqn:Hpoll.
  - revert Hpoll. unfold spec_poll. run_cases; intros; simplify_eq; cbn; lia.
  - specialize (IH w (h ++ es)).
    destruct (spec_poller B w (h ++ es)) as [r es'] eqn:Hrest.
    cbn [fst snd] in *. rewrite count_events_app.
    assert (count_events (is_run argv_get_deployment) es = 1%nat).
    { revert Hpoll. unfold spec_poll. run_cases; intros; simplify_eq; reflexivity. }
    lia.
  - revert Hpoll. unfold spec_poll. run_cases; intros; simplify_eq.
Qed.

(** C1, what the code does not do: in [world_slow] the deployment is
    ready at the second status query.  A poller with a budget of two
    polls queries twice and ends [Converged]; [check_deployment_status]
    queries once and returns [False]. *)
Lemma check_deployment_status_does_not_poll :
  fst (spec_poller 2 world_slow []) = Ok Converged /\
  count_events (is_run argv_get_deployment) (snd (spec_poller 2 world_slow [])) = 2%nat /\
  fst (check_deployment_status monitor world_slow []) = Ok false /\
  count_events (is_run argv_get_deployment)
    (snd (check_deployment_status monitor world_slow [])) = 1%nat.
Proof. repeat split; vm_compute; reflexivity. Qed.

(** C1 (amended): every call of [check_deployment_status] launches the
    status query exactly once; when that one query does not show as many
    ready replicas as declared (a poller with a budget of one poll would
    end [TimedOut]) the call returns [False]. *)
Theorem check_deployment_status_single_shot self w h :
  count_events (is_run argv_get_deployment)
    (snd (check_deployment_status self w h)) = 1%nat /\
  (fst (spec_poller 1 w h) = Ok TimedOut ->
   fst (check_deployment_status self w h) = Ok false).
Proof.
  split.
  - check_cases; reflexivity.
  - check_cases; intros; simplify_eq; reflexivity.
Qed.

Lemma check_deployment_status_single_shot_witness :
  fst (spec_poller 1 world_slow []) = Ok TimedOut /\
  fst (check_deployment_status monitor world_slow []) = Ok false.
Proof.
  split; [vm_compute; reflexivity |].
  apply (proj2 (check_deployment_status_single_shot monitor world_slow [])).
  vm_compute; reflexivity.
Defined.

(** C3, at the failing input: in [world_clusterip] the status query
    reports 1 ready replica of 1 declared and the program prints that
    the deployment is ready, but the service has no [nodePort], the
    lookup raises [KeyError] and the call returns [False]. *)
Theorem check_deployment_status_false_though_ready :
  check_deployment_status monitor world_clusterip [] =
    (Ok false,
     [ERun argv_get_deployment (completed 0 (deployment_json "1" "1"));
      EPrint (MsgStatus (JInt 1) (JInt 1));
      EPrint MsgDeploymentReady;
      ERun argv_get_svc (completed 0 clusterip_json);
      EPrint (MsgStatusError KeyError)]).
Proof. vm_compute. reflexivity. Qed.

(** When the call returns [True], the single status query did report as
    many ready replicas as declared. *)
Lemma check_deployment_status_true_sound self w h :
  fst (check_deployment_status self w h) = Ok true ->
  fst (spec_poll w h) = Ok true.
Proof. check_cases; intros; simplify_eq; reflexivity. Qed.

(** C5, what the code does not do: in [world_no_service] the deployment
    has converged and the call returns [True], yet [kubectl get svc]
    fails and no endpoint is printed. *)
Lemma converged_without_endpoint :
  fst (check_deployment_status monitor world_no_service []) = Ok true /\
  count_events is_endpoint_print
    (snd (check_deployment_status monitor world_no_service [])) = 0%nat.
Proof. split; vm_compute; reflexivity. Qed.

(** C5 (amended): a call that returns [True] launched the service
    lookup exactly once; the lookup is launched, exactly once, if and
    only if the status query reported as many ready replicas as
    declared; an endpoint is printed, once, if and only if the call
    returns [True] and the lookup exited with status 0; when the counts
    differ, nothing is looked up or printed and the call returns
    [False]. *)
Theorem endpoint_only_when_converged self w h :
  (fst (check_deployment_status self w h) = Ok true ->
   count_events (is_run argv_get_svc) (snd (check_deployment_status self w h)) = 1%nat) /\
  (count_events (is_run argv_get_svc) (snd (check_deployment_status self w h)) <= 1)%nat /\
  (count_events (is_run argv_get_svc) (snd (check_deployment_status self w h)) = 1%nat
   <-> fst (spec_poll w h) = Ok true) /\
  (count_events is_endpoint_print (snd (check_deployment_status self w h)) <= 1)%nat /\
  (count_events is_endpoint_print (snd (check_deployment_status self w h)) = 1%nat
   <-> fst (check_deployment_status self w h) = Ok true /\
       exists result,
         run_answer argv_get_svc (snd (check_deployment_status self w h)) = Some (Ok result)
         /\ returncode result = 0) /\
  (fst (spec_poll w h) = Ok false ->
   fst (check_deployment_status self w h) = Ok false /\
   count_events (is_run argv_get_svc) (snd (check_deployment_status self w h)) = 0%nat /\
   count_events is_endpoint_print (snd (check_deployment_status self w h)) = 0%nat).
Proof.
  repeat split.
  all: check_cases; intros; simplify_eq; try lia; try reflexivity.
  all: try match goal with H : _ /\ _ |- _ => destruct H as [? [? [? ?]]] end;
       simplify_eq; try lia.
  all: eexists; split; [reflexivity | lia].
Qed.

Lemma endpoint_only_when_converged_witness :
  fst (check_deployment_status monitor world_ready []) = Ok true /\
  count_events is_endpoint_print (snd (check_deployment_status monitor world_ready [])) = 1%nat.
Proof.
  split; [vm_compute; reflexivity |].
  apply (proj2 (proj1 (proj2 (proj2 (proj2 (proj2
           (endpoint_only_when_converged monitor world_ready []))))))).
  split; [vm_compute; reflexivity |].
  exists {| returncode := 0; stdout := nodeport_json; stderr := EmptyString |}.
  split; vm_compute; reflexivity.
Defined.

(** ** The deployment *)

Lemma check_deployment_status_no_step_raised self w h :
  existsb deploy_step_raised (snd (check_deployment_status self w h)) = false.
Proof. check_cases; reflexivity. Qed.

Lemma check_deployment_status_no_query self w h :
  count_events is_custom_query (snd (check_deployment_status self w h)) = 0%nat.
Proof. check_cases; reflexivity. Qed.

(** Case analysis of [deploy_application], with the status check kept as
    one step whose result and events are named. *)
Ltac deploy_cases self :=
  unfold deploy_application, fix_deployment_file in *; unfold_m;
  repeat (cbn -[check_deployment_status] in *; case_step);
  cbn -[check_deployment_status] in *;
  repeat match goal with
    | H : check_deployment_status self ?w ?h = (?r, ?es) |- _ =>
        let Hr := fresh "Hr" in
        let Hs := fresh "Hs" in
        let Hq := fresh "Hq" in
        destruct (check_deployment_status_total self w h) as [? Hr];
        pose proof (check_deployment_status_no_step_raised self w h) as Hs;
        pose proof (check_deployment_status_no_query self w h) as Hq;
        rewrite H in Hr, Hs, Hq; cbn in Hr, Hs, Hq; clear H
    end.

(** C7, what the code does not do: in [world_service_rejected] the
    deployment is applied, [kubectl apply -f service.yaml] exits with
    status 1, and [deploy_application] still returns [True]. *)
Lemma partial_apply_failure_reported_as_success :
  run_answer (argv_apply "deployment.yaml")
    (snd (deploy_application monitor world_service_rejected [])) = Some (completed 0 EmptyString) /\
  run_answer (argv_apply "service.yaml")
    (snd (deploy_application monitor world_service_rejected [])) = Some (completed 1 EmptyString) /\
  fst (deploy_application monitor world_service_rejected []) = Ok true.
Proof. repeat split; vm_compute; reflexivity. Qed.

(** C7 (amended): [deploy_application] reports one boolean for the whole
    run.  It is [False] exactly when one of its own steps raised (the
    write of [deployment.yaml] or the launch of one of the four
    commands); once [kubectl apply -f service.yaml] has returned,
    whatever its exit status, the result is [True]. *)
Theorem deploy_application_single_boolean self w h :
  fst (deploy_application self w h) =
    Ok (negb (existsb deploy_step_raised (snd (deploy_application self w h)))) /\
  (forall result,
      run_answer (argv_apply "service.yaml") (snd (deploy_application self w h))
        = Some (Ok result) ->
      fst (deploy_application self w h) = Ok true).
Proof.
  split; [| intros result].
  all: deploy_cases self; intros; simplify_eq; try reflexivity.
  rewrite existsb_app, Hs. reflexivity.
Qed.

Lemma deploy_application_single_boolean_witness :
  run_answer (argv_apply "service.yaml")
    (snd (deploy_application monitor world_service_rejected [])) = Some (completed 1 EmptyString) /\
  fst (deploy_application monitor world_service_rejected []) = Ok true.
Proof.
  split; [vm_compute; reflexivity |].
  apply (proj2 (deploy_application_single_boolean monitor world_service_rejected [])
           {| returncode := 1; stdout := EmptyString; stderr := EmptyString |}).
  vm_compute; reflexivity.
Defined.

(** C8, what the code does not do: a deployment run with a connected
    Prometheus handle sends no metric query, and what it returns is the
    boolean [True]. *)
Lemma deploy_application_fetches_no_metrics :
  prometheus connected_monitor = Some local_prometheus /\
  count_events is_custom_query
    (snd (deploy_application connected_monitor world_ready [])) = 0%nat /\
  fst (deploy_application connected_monitor world_ready []) = Ok true.
Proof. repeat split; vm_compute; reflexivity. Qed.

(** C8 (amended): whatever the outcome of its stages,
    [deploy_application] sends no metric query and returns a single
    boolean. *)
Theorem deploy_application_sends_no_query self w h :
  count_events is_custom_query (snd (deploy_application self w h)) = 0%nat /\
  exists b, fst (deploy_application self w h) = Ok b.
Proof.
  split.
  - deploy_cases self; simplify_eq; try reflexivity.
    all: unfold count_events in *; rewrite List.filter_app, length_app, Hq; reflexivity.
  - deploy_cases self; eauto.
Qed.

(** ** The endpoint resolver *)

Section EndpointResolver.

Variable self : KubernetesMonitor.
Variable w : World.

(** The loop stops at the first service whose first port entry has a
    node port, and asks for the node address only then. *)
Lemma get_prometheus_url_loop_first items : forall h,
  get_prometheus_url_loop self items w h =
    match first_assigned_port items with
    | Some port =>
        (Ok ("http://" +:+ node_address (subprocess_run w h ["minikube"; "ip"])
             +:+ ":" +:+ str_of_int port),
         [ERun ["minikube"; "ip"] (subprocess_run w h ["minikube"; "ip"])])
    | None => (Ok fallback_url, [])
    end.
Proof.
  induction items as [|svc rest IH]; intros h; [reflexivity |].
  cbn [get_prometheus_url_loop first_assigned_port]. unfold assigned_node_port.
  destruct (ports (spec svc)) as [|p0 ps]; [apply IH |].
  destruct (node_port p0) as [port|]; [| apply IH].
  destruct (port =? 0); [apply IH |].
  unfold bind. rewrite get_minikube_ip_answer. reflexivity.
Qed.

Lemma first_assigned_port_none items :
  first_assigned_port items = None <->
  forall svc, In svc items -> assigned_node_port svc = None.
Proof.
  induction items as [|svc rest IH]; cbn.
  - split; [intros _ svc [] | reflexivity].
  - destruct (assigned_node_port svc) eqn:Ha.
    + split; [discriminate |].
      intros H. rewrite <- Ha. apply H. left; reflexivity.
    + rewrite IH. split.
      * intros H s [<- | Hin]; [exact Ha | apply H, Hin].
      * intros H s Hin. apply H. right; exact Hin.
Qed.

Lemma first_assigned_port_some items port :
  first_assigned_port items = Some port ->
  exists svc, In svc items /\ assigned_node_port svc = Some port.
Proof.
  induction items as [|svc rest IH]; cbn; [discriminate |].
  destruct (assigned_node_port svc) eqn:Ha.
  - intros [= <-]. exists svc. split; [left; reflexivity | exact Ha].
  - intros H. destruct (IH H) as [s [Hin Hs]]. exists s. split; [right |]; assumption.
Qed.

End EndpointResolver.

(** C6: [get_prometheus_url] never raises.  It returns the fallback
    address when the kubeconfig cannot be loaded, when listing the
    services fails, when no service matches and when no listed service
    has a node port on its first port entry; when some listed service
    has one, it returns the node address paired with the node port of
    such a service. *)
Theorem get_prometheus_url_resolves_or_falls_back self w h :
  exists u,
    fst (get_prometheus_url self w h) = Ok u /\
    (forall e, load_kube_config w h = Raise e -> u = fallback_url) /\
    (forall e, services_answer (snd (get_prometheus_url self w h)) = Some (Raise e) ->
               u = fallback_url) /\
    (forall items,
        services_answer (snd (get_prometheus_url self w h)) = Some (Ok items) ->
        (forall svc, In svc items -> assigned_node_port svc = None) ->
        u = fallback_url) /\
    (forall items,
        services_answer (snd (get_prometheus_url self w h)) = Some (Ok items) ->
        (exists svc, In svc items /\ assigned_node_port svc <> None) ->
        exists svc port answer,
          In svc items /\ assigned_node_port svc = Some port /\
          run_answer ["minikube"; "ip"] (snd (get_prometheus_url self w h)) = Some answer /\
          u = "http://" +:+ node_address answer +:+ ":" +:+ str_of_int port).
Proof.
  unfold get_prometheus_url, try_except, bind, kube_config, list_service, ret.
  destruct (load_kube_config w h) as [[]|e0] eqn:Hcfg; cbn.
  2: { exists fallback_url. repeat split; intros; try discriminate; reflexivity. }
  destruct (list_namespaced_service w _ (namespace self) "app=prometheus")
    as [items0|e1] eqn:Hlist; cbn.
  2: { exists fallback_url. repeat split; intros; try discriminate; reflexivity. }
  rewrite get_prometheus_url_loop_first.
  destruct (first_assigned_port items0) as [port|] eqn:Hfirst; cbn.
  - eexists. split; [reflexivity |]. repeat split; intros; try discriminate.
    + simplify_eq. apply first_assigned_port_none in H0. congruence.
    + simplify_eq. destruct (first_assigned_port_some _ _ Hfirst) as [svc [Hin Hsvc]].
      exists svc, port. eexists. repeat split; eauto.
  - exists fallback_url. repeat split; intros; try discriminate; try reflexivity.
    simplify_eq. destruct H0 as [svc [Hin Hsvc]].
    rewrite first_assigned_port_none in Hfirst. elim Hsvc. apply Hfirst, Hin.
Qed.

Lemma get_prometheus_url_resolves_or_falls_back_witness :
  fst (get_prometheus_url monitor world_prometheus_nodeport []) =
    Ok "http://192.168.49.2:30090" /\
  fst (get_prometheus_url monitor world_api_down []) = Ok fallback_url.
Proof.
  split.
  - destruct (get_prometheus_url_resolves_or_falls_back monitor world_prometheus_nodeport [])
      as [u [Hu [_ [_ [_ Hport]]]]].
    rewrite Hu. f_equal.
    destruct (Hport [service_with None; service_with (Some 30090)])
      as [svc [port [answer [Hin [Hsvc [Hip ->]]]]]].
    + vm_compute; reflexivity.
    + exists (service_with (Some 30090)). split; [right; left; reflexivity | discriminate].
    + destruct Hin as [<- | [<- | []]]; [discriminate |].
      vm_compute in Hsvc, Hip. injection Hsvc as <-. injection Hip as <-.
      vm_compute; reflexivity.
  - destruct (get_prometheus_url_resolves_or_falls_back monitor world_api_down [])
      as [u [Hu [_ [Hdown _]]]].
    rewrite Hu. f_equal. apply (Hdown ApiException). vm_compute; reflexivity.
Defined.

(** * Further properties of the code *)

(** ** [get_minikube_ip] *)

Lemma lstrip_idempotent s : lstrip (lstrip s) = lstrip s.
Proof.
  induction s as [|c s IH]; [reflexivity |].
  cbn. destruct (isspace c) eqn:Hc; [exact IH |].
  cbn. rewrite Hc. reflexivity.
Qed.

Lemma rstrip_idempotent s : rstrip (rstrip s) = rstrip s.
Proof.
  induction s as [|c s IH]; [reflexivity |].
  cbn. destruct (rstrip s) as [|d t] eqn:Hr.
  - destruct (isspace c) eqn:Hc; [reflexivity |].
    cbn. rewrite Hc. reflexivity.
  - cbn [rstrip] in *. rewrite IH. reflexivity.
Qed.

(** Stripping the right end keeps a left end that is already clean. *)
Lemma lstrip_rstrip s : lstrip s = s -> lstrip (rstrip s) = rstrip s.
Proof.
  destruct s as [|c s]; [reflexivity |].
  cbn. destruct (isspace c) eqn:Hc.
  - intros H. exfalso.
    assert (Hlen : (String.length (lstrip s) <= String.length s)%nat).
    { clear. induction s as [|d s IH]; cbn; [lia |].
      destruct (isspace d); cbn; lia. }
    rewrite H in Hlen. cbn in Hlen. lia.
  - intros _. destruct (rstrip s); cbn; rewrite Hc; reflexivity.
Qed.

Lemma strip_clean s : lstrip (strip s) = strip s /\ rstrip (strip s) = strip s.
Proof.
  unfold strip. split.
  - apply lstrip_rstrip, lstrip_idempotent.
  - apply rstrip_idempotent.
Qed.

(** X1: [get_minikube_ip] never raises and launches [minikube ip] once.
    The address it returns has no white space at either end, and it is
    the text the command printed, stripped, whatever the exit status;
    only when the launch itself raises is it 192.168.49.2. *)
Theorem get_minikube_ip_clean_address self w h :
  exists ip,
    get_minikube_ip self w h =
      (Ok ip, [ERun ["minikube"; "ip"] (subprocess_run w h ["minikube"; "ip"])]) /\
    lstrip ip = ip /\ rstrip ip = ip /\
    (forall result, subprocess_run w h ["minikube"; "ip"] = Ok result ->
                    ip = strip (stdout result)) /\
    (forall e, subprocess_run w h ["minikube"; "ip"] = Raise e -> ip = "192.168.49.2").
Proof.
  unfold get_minikube_ip. unfold_m.
  destruct (subprocess_run w h ["minikube"; "ip"]) as [result|e]; cbn.
  - exists (strip (stdout result)).
    destruct (strip_clean (stdout result)) as [Hl Hr].
    repeat split; try assumption; intros; congruence.
  - exists "192.168.49.2". repeat split; intros; congruence.
Qed.

Lemma get_minikube_ip_clean_address_witness :
  fst (get_minikube_ip monitor world_ready []) = Ok "192.168.49.2".
Proof.
  destruct (get_minikube_ip_clean_address monitor world_ready [])
    as [ip [Hrun [_ [_ [Hok _]]]]].
  rewrite Hrun. cbn [fst]. f_equal.
  rewrite (Hok {| returncode := 0; stdout := "192.168.49.2" +:+ nl; stderr := EmptyString |});
    vm_compute; reflexivity.
Defined.

(** ** [get_prometheus_url] *)

Lemma first_assigned_port_split before svc after port :
  (forall s, In s before -> assigned_node_port s = None) ->
  assigned_node_port svc = Some port ->
  first_assigned_port (before ++ svc :: after) = Some port.
Proof.
  intros Hbefore Hsvc. induction before as [|s before IH]; cbn.
  - rewrite Hsvc. reflexivity.
  - rewrite (Hbefore s) by (left; reflexivity).
    apply IH. intros s' Hin. apply Hbefore. right; exact Hin.
Qed.

(** X2: the URL carries the node port of the first listed service that
    has one: services listed before it without a node port on their
    first port entry are skipped, services after it are not looked at. *)
Theorem get_prometheus_url_first_service self w h before svc after port :
  services_answer (snd (get_prometheus_url self w h)) = Some (Ok (before ++ svc :: after)) ->
  (forall s, In s before -> assigned_node_port s = None) ->
  assigned_node_port svc = Some port ->
  exists answer,
    run_answer ["minikube"; "ip"] (snd (get_prometheus_url self w h)) = Some answer /\
    fst (get_prometheus_url self w h) =
      Ok ("http://" +:+ node_address answer +:+ ":" +:+ str_of_int port).
Proof.
  intros Hlist Hbefore Hsvc. revert Hlist.
  unfold get_prometheus_url, try_except, bind, kube_config, list_service, ret.
  destruct (load_kube_config w h) as [[]|e0]; cbn; [| discriminate].
  destruct (list_namespaced_service w _ (namespace self) "app=prometheus")
    as [items|e1]; cbn; [| discriminate].
  rewrite get_prometheus_url_loop_first.
  destruct (first_assigned_port items) as [p|] eqn:Hfirst; cbn;
    intros [= ->];
    rewrite (first_assigned_port_split _ _ _ _ Hbefore Hsvc) in Hfirst;
    [| discriminate].
  injection Hfirst as ->. eexists. split; reflexivity.
Qed.

Lemma get_prometheus_url_first_service_witness :
  fst (get_prometheus_url monitor world_prometheus_nodeport []) =
    Ok "http://192.168.49.2:30090".
Proof.
  destruct (get_prometheus_url_first_service monitor world_prometheus_nodeport []
              [service_with None] (service_with (Some 30090)) [] 30090)
    as [answer [Hip Hurl]].
  - vm_compute; reflexivity.
  - intros s [<- | []]. reflexivity.
  - reflexivity.
  - rewrite Hurl. vm_compute in Hip. injection Hip as <-. vm_compute; reflexivity.
Defined.

(** X3: the resolver asks for the services at most once, always in the
    monitor's namespace with the selector [app=prometheus], and only
    when the kube config loaded; it launches [minikube ip], and nothing
    else, exactly when a listed service has a node port. *)
Theorem get_prometheus_url_requests self w h :
  (forall e, load_kube_config w h = Raise e ->
             listings_requested (snd (get_prometheus_url self w h)) = []) /\
  (load_kube_config w h = Ok tt ->
   listings_requested (snd (get_prometheus_url self w h))
     = [(namespace self, "app=prometheus")]) /\
  (launched (snd (get_prometheus_url self w h)) = [["minikube"; "ip"]] <->
   exists items port,
     services_answer (snd (get_prometheus_url self w h)) = Some (Ok items) /\
     first_assigned_port items = Some port) /\
  (launched (snd (get_prometheus_url self w h)) = [] \/
   launched (snd (get_prometheus_url self w h)) = [["minikube"; "ip"]]).
Proof.
  unfold get_prometheus_url, try_except, bind, kube_config, list_service, ret.
  destruct (load_kube_config w h) as [[]|e0]; cbn.
  2: { repeat split; intros; try discriminate; auto.
       destruct H as [? [? [? ?]]]; discriminate. }
  destruct (list_namespaced_service w _ (namespace self) "app=prometheus")
    as [items|e1]; cbn.
  2: { repeat split; intros; try discriminate; auto.
       destruct H as [? [? [? ?]]]; discriminate. }
  rewrite get_prometheus_url_loop_first.
  destruct (first_assigned_port items) as [p|] eqn:Hfirst; cbn.
  - repeat split; intros; try discriminate; eauto.
  - repeat split; intros; try discriminate; auto.
    destruct H as [? [? [[= <-] ?]]]. congruence.
Qed.

Lemma get_prometheus_url_requests_witness :
  load_kube_config world_ready [] = Ok tt /\
  listings_requested (snd (get_prometheus_url monitor world_ready []))
    = [("monitoring", "app=prometheus")].
Proof.
  split; [reflexivity |].
  apply (proj1 (proj2 (get_prometheus_url_requests monitor world_ready []))).
  reflexivity.
Defined.

(** ** [check_deployment_status] *)

(** X4: a status without [readyReplicas] counts as 0 ready replicas:
    the program prints 0 out of the declared number and, when that
    number is a non-zero integer, returns [False] without looking up the
    service. *)
Theorem check_deployment_status_missing_ready self w h result data status spec_ total :
  subprocess_run w h argv_get_deployment = Ok result ->
  returncode result = 0 ->
  json_loads w (stdout result) = Ok data ->
  getitem_str data "status" = Ok (JDict status) ->
  assoc "readyReplicas" status = None ->
  getitem_str data "spec" = Ok spec_ ->
  getitem_str spec_ "replicas" = Ok (JInt total) ->
  total <> 0 ->
  check_deployment_status self w h =
    (Ok false,
     [ERun argv_get_deployment (Ok result); EPrint (MsgStatus (JInt 0) (JInt total))]).
Proof.
  intros Hrun Hrc Hload Hstatus Hready Hspec Htotal Hnz.
  unfold check_deployment_status. unfold_m.
  rewrite Hrun. cbn. rewrite Hrc. cbn. rewrite Hload. cbn.
  rewrite Hstatus. cbn. rewrite Hready, Hspec. cbn. rewrite Htotal. cbn.
  destruct total; [congruence | reflexivity | reflexivity].
Qed.

Lemma check_deployment_status_missing_ready_witness :
  check_deployment_status monitor world_unready [] =
    (Ok false,
     [ERun argv_get_deployment (completed 0 (unready_json "3"));
      EPrint (MsgStatus (JInt 0) (JInt 3))]).
Proof.
  apply (check_deployment_status_missing_ready monitor world_unready []
           {| returncode := 0; stdout := unready_json "3"; stderr := EmptyString |}
           (unready_value 3) [] (JDict [("replicas", JInt 3)]) 3);
    try (vm_compute; reflexivity).
  discriminate.
Defined.

(** X5: [check_deployment_status] never raises, and every failure ends
    in [False]: a status command that exits with a non-zero status gives
    [False] with nothing printed and nothing else launched; a status
    command that cannot be launched, and any other exception (an error
    line is printed), give [False] as well. *)
Theorem check_deployment_status_failures self w h :
  exists b,
    fst (check_deployment_status self w h) = Ok b /\
    (forall result,
        subprocess_run w h argv_get_deployment = Ok result ->
        returncode result <> 0 ->
        check_deployment_status self w h = (Ok false, [ERun argv_get_deployment (Ok result)])) /\
    (forall e,
        subprocess_run w h argv_get_deployment = Raise e ->
        check_deployment_status self w h =
          (Ok false, [ERun argv_get_deployment (Raise e); EPrint (MsgStatusError e)])) /\
    (forall e, In (EPrint (MsgStatusError e)) (snd (check_deployment_status self w h)) ->
               b = false).
Proof.
  destruct (check_deployment_status_total self w h) as [b Hb].
  exists b. split; [exact Hb |]. repeat split.
  - intros result Hrun Hrc. clear Hb.
    unfold check_deployment_status. unfold_m. rewrite Hrun. cbn.
    destruct (returncode result =? 0) eqn:Hz; [apply Z.eqb_eq in Hz; contradiction |].
    reflexivity.
  - intros e Hrun. clear Hb.
    unfold check_deployment_status. unfold_m. rewrite Hrun. reflexivity.
  - intros e. revert Hb.
    check_cases; intros; simplify_eq; try reflexivity.
    all: repeat match goal with
           | H : _ \/ _ |- _ => destruct H
           | H : False |- _ => destruct H
           end; discriminate.
Qed.

Lemma check_deployment_status_failures_witness :
  check_deployment_status monitor world_no_kubectl [] =
    (Ok false, [ERun argv_get_deployment (Raise OSError); EPrint (MsgStatusError OSError)]).
Proof.
  destruct (check_deployment_status_failures monitor world_no_kubectl [])
    as [b [_ [_ [Hraise _]]]].
  apply (Hraise OSError). reflexivity.
Defined.

(** ** [deploy_application] *)

Lemma launched_app es es' : launched (es ++ es') = launched es ++ launched es'.
Proof.
  induction es as [|e es IH]; [reflexivity |].
  destruct e; cbn; rewrite IH; reflexivity.
Qed.

Lemma run_answer_app argv es es' :
  run_answer argv (es ++ es') =
    match run_answer argv es with
    | Some answer => Some answer
    | None => run_answer argv es'
    end.
Proof.
  induction es as [|e es IH]; [reflexivity |].
  destruct e; cbn; try exact IH.
  destruct (argv_eqb argv0 argv); [reflexivity | exact IH].
Qed.

(** The commands of the status check, in order. *)
Lemma check_deployment_status_launched self w h :
  exists rest,
    [argv_get_deployment; argv_get_svc; ["minikube"; "ip"]] =
      launched (snd (check_deployment_status self w h)) ++ rest /\
    (length rest < 3)%nat.
Proof.
  check_cases.
  all: first [ exists [] ; split; [reflexivity | cbn; lia]
             | exists [["minikube"; "ip"]]; split; [reflexivity | cbn; lia]
             | exists [argv_get_svc; ["minikube"; "ip"]]; split; [reflexivity | cbn; lia] ].
Qed.

(** X6: [deploy_application] launches its commands in one fixed order
    and never skips one: what it launched is always an initial part of
    build, image load, apply deployment, apply service, get deployment,
    get service, minikube ip.  So nothing is applied before the image
    was built and loaded, and when the write of [deployment.yaml] fails
    nothing is launched at all. *)
Theorem deploy_application_command_order self w h :
  (exists rest, deploy_commands = launched (snd (deploy_application self w h)) ++ rest) /\
  (forall e, write_file w (h ++ [EPrint MsgDeploying]) "deployment.yaml" deployment_content
               = Raise e ->
             launched (snd (deploy_application self w h)) = [] /\
             fst (deploy_application self w h) = Ok false).
Proof.
  split.
  - unfold deploy_application, fix_deployment_file. unfold_m.
    repeat (cbn -[check_deployment_status] in *; case_step);
      cbn -[check_deployment_status] in *.
    all: try match goal with
           | H : check_deployment_status ?s ?w' ?h' = (_, ?l) |- _ =>
               let rest := fresh "rest" in
               let Hrest := fresh "Hrest" in
               destruct (check_deployment_status_launched s w' h') as [rest [Hrest _]];
               rewrite H in Hrest; cbn [snd] in Hrest;
               exists rest; rewrite launched_app; cbn;
               rewrite <- app_assoc, app_nil_r || rewrite app_nil_r || idtac;
               unfold deploy_commands; rewrite Hrest; reflexivity
           end.
    all: unfold deploy_commands; eexists; reflexivity.
  - intros e Hw.
    unfold deploy_application, fix_deployment_file. unfold_m.
    cbn -[deployment_content]. rewrite Hw. cbn. split; reflexivity.
Qed.

Lemma deploy_application_command_order_witness :
  launched (snd (deploy_application monitor world_slow [])) =
    [argv_docker_build; argv_image_load; argv_apply "deployment.yaml";
     argv_apply "service.yaml"; argv_get_deployment] /\
  exists rest,
    deploy_commands = launched (snd (deploy_application monitor world_slow [])) ++ rest.
Proof.
  split; [vm_compute; reflexivity |].
  apply (proj1 (deploy_application_command_order monitor world_slow [])).
Defined.

Lemma check_deployment_status_queries_status self w h :
  run_answer argv_get_deployment (snd (check_deployment_status self w h)) <> None.
Proof. check_cases; discriminate. Qed.

(** X7: no exit status stops a deployment.  Once [docker build] has
    returned, whatever its exit status, the image load is launched; once
    that has returned the deployment is applied, then the service, then
    the status is queried. *)
Theorem deploy_application_ignores_exit_status self w h :
  (forall result,
      run_answer argv_docker_build (snd (deploy_application self w h)) = Some (Ok result) ->
      run_answer argv_image_load (snd (deploy_application self w h)) <> None) /\
  (forall result,
      run_answer argv_image_load (snd (deploy_application self w h)) = Some (Ok result) ->
      run_answer (argv_apply "deployment.yaml") (snd (deploy_application self w h)) <> None) /\
  (forall result,
      run_answer (argv_apply "deployment.yaml") (snd (deploy_application self w h))
        = Some (Ok result) ->
      run_answer (argv_apply "service.yaml") (snd (deploy_application self w h)) <> None) /\
  (forall result,
      run_answer (argv_apply "service.yaml") (snd (deploy_application self w h))
        = Some (Ok result) ->
      run_answer argv_get_deployment (snd (deploy_application self w h)) <> None).
Proof.
  repeat split; intros result.
  all: unfold deploy_application, fix_deployment_file; unfold_m.
  all: repeat (cbn -[check_deployment_status] in *; case_step);
       cbn -[check_deployment_status] in *.
  all: try discriminate.
  all: intros _.
  all: match goal with
       | H : check_deployment_status ?s ?w' ?h' = (_, ?l) |- _ =>
           pose proof (check_deployment_status_queries_status s w' h') as Hq;
           rewrite H in Hq; cbn [snd] in Hq;
           rewrite run_answer_app;
           destruct (run_answer argv_get_deployment l); [discriminate | contradiction]
       end.
Qed.

Lemma deploy_application_ignores_exit_status_witness :
  run_answer (argv_apply "service.yaml")
    (snd (deploy_application monitor world_service_rejected [])) = Some (completed 1 EmptyString) /\
  run_answer argv_get_deployment
    (snd (deploy_application monitor world_service_rejected [])) <> None.
Proof.
  split; [vm_compute; reflexivity |].
  apply (proj2 (proj2 (proj2
           (deploy_application_ignores_exit_status monitor world_service_rejected [])))
           {| returncode := 1; stdout := EmptyString; stderr := EmptyString |}).
  vm_compute; reflexivity.
Defined.

(** ** [get_prometheus_metrics] *)

(** X8: the queries go to the stored handle in the order cpu, memory,
    disk, pods, each at most once, and a query that raises is the last
    one sent. *)
Theorem get_prometheus_metrics_query_order self w h prom :
  prometheus self = Some prom ->
  (exists rest,
      map (fun q => (prom, q)) metric_queries =
        queries_sent (snd (get_prometheus_metrics self w h)) ++ rest) /\
  (forall q e,
      query_answer q (snd (get_prometheus_metrics self w h)) = Some (Raise e) ->
      exists before,
        queries_sent (snd (get_prometheus_metrics self w h)) = before ++ [(prom, q)]).
Proof.
  intros Hp. split.
  - revert Hp. metrics_cases; intros; simplify_eq.
    all: unfold metric_queries; cbn [map].
    all: first [ exists []; reflexivity
               | eexists [_]; reflexivity
               | eexists [_; _]; reflexivity
               | eexists [_; _; _]; reflexivity ].
  - intros q e. revert Hp. metrics_cases; intros; simplify_eq.
    all: repeat case_match; simplify_eq.
    all: repeat match goal with
           | H : (_ =? _)%string = true |- _ => apply String.eqb_eq in H; subst
           end.
    all: first [ exists []; reflexivity
               | eexists [_]; reflexivity
               | eexists [_; _]; reflexivity
               | eexists [_; _; _]; reflexivity ].
Qed.

Lemma get_prometheus_metrics_query_order_witness :
  prometheus connected_monitor = Some local_prometheus /\
  queries_sent (snd (get_prometheus_metrics connected_monitor world_memory_timeout []))
    = [(local_prometheus, cpu_query); (local_prometheus, memory_query)].
Proof.
  split; [reflexivity |].
  destruct (proj2 (get_prometheus_metrics_query_order connected_monitor world_memory_timeout []
                     local_prometheus eq_refl) memory_query (OtherException "ReadTimeout"))
    as [before Hbefore]; [vm_compute; reflexivity |].
  vm_compute; reflexivity.
Defined.

(** X9: the [pods] field is the number of series the pods query
    returned, whatever the samples say: when the world answers the four
    queries and the three percentage fields can be read, the snapshot
    carries that number; and whenever the pods query was answered with a
    list, the [pods] field of the result is its length. *)
Theorem get_prometheus_metrics_pods_counts_series self w h prom :
  prometheus self = Some prom ->
  (forall r1 r2 r3 series v1 v2 v3,
      metrics_answered w h prom r1 r2 r3 (JList series) ->
      first_sample_or_na r1 = Ok v1 ->
      first_sample_or_na r2 = Ok v2 ->
      first_sample_or_na r3 = Ok v3 ->
      fst (get_prometheus_metrics self w h)
        = Ok (snapshot v1 v2 v3 (JInt (Z.of_nat (length series))))) /\
  (forall series m,
      query_answer pods_query (snd (get_prometheus_metrics self w h))
        = Some (Ok (JList series)) ->
      fst (get_prometheus_metrics self w h) = Ok m ->
      m !! "pods" = Some (JInt (Z.of_nat (length series)))).
Proof.
  intros Hp. split.
  - intros r1 r2 r3 series v1 v2 v3 Hw Hv1 Hv2 Hv3.
    apply (get_prometheus_metrics_answered self w h prom r1 r2 r3 (JList series));
      try assumption.
    destruct series; reflexivity.
  - intros series m. revert Hp.
    metrics_cases; intros; simplify_eq.
    all: destruct series; cbn in *; simplify_eq; simplify_map_eq; reflexivity.
Qed.

Lemma get_prometheus_metrics_pods_counts_series_witness :
  prometheus connected_monitor = Some local_prometheus /\
  fst (get_prometheus_metrics connected_monitor world_ready [])
    = Ok (snapshot (JStr "42.1") (JStr "63.0") (JStr "5.3") (JInt 3)).
Proof.
  split; [reflexivity |].
  apply (proj1 (get_prometheus_metrics_pods_counts_series connected_monitor world_ready []
                  local_prometheus eq_refl)
           (JList [sample "42.1"; sample "17.0"]) (JList [sample "63.0"])
           (JList [sample "5.3"]) [sample "1"; sample "1"; sample "1"]);
    try reflexivity.
  repeat split; vm_compute; reflexivity.
Defined.

(** X10: one unreadable sample costs the whole snapshot: when the first
    sample of a non-empty cpu, memory or disk result has no readable
    value, the function returns the empty dict. *)
Theorem get_prometheus_metrics_unreadable_sample self w h prom name q s rest e :
  prometheus self = Some prom ->
  In (name, q) numeric_queries ->
  query_answer q (snd (get_prometheus_metrics self w h)) = Some (Ok (JList (s :: rest))) ->
  sample_value s = Raise e ->
  fst (get_prometheus_metrics self w h) = Ok ∅.
Proof.
  intros Hp Hin. rewrite <- (first_sample_or_na_series s rest). revert Hp.
  destruct Hin as [E | [E | [E | []]]]; inversion E; subst name q; clear E.
  all: metrics_cases; intros; simplify_eq; try reflexivity; congruence.
Qed.

Lemma get_prometheus_metrics_unreadable_sample_witness :
  prometheus connected_monitor = Some local_prometheus /\
  fst (get_prometheus_metrics connected_monitor world_bad_sample []) = Ok ∅.
Proof.
  split; [reflexivity |].
  apply (get_prometheus_metrics_unreadable_sample connected_monitor world_bad_sample []
           local_prometheus "cpu" cpu_query (JDict [("metric", JDict [])]) [] KeyError).
  - reflexivity.
  - left; reflexivity.
  - vm_compute; reflexivity.
  - reflexivity.
Defined.

(** X11: [get_prometheus_metrics] never raises, and its result is
    either the empty dict or a dict with exactly the four keys cpu,
    memory, disk and pods; it is empty exactly when the header of the
    report was not printed. *)
Theorem get_prometheus_metrics_shape self w h :
  exists m,
    fst (get_prometheus_metrics self w h) = Ok m /\
    (m = ∅ \/ dom m = list_to_set ["cpu"; "memory"; "disk"; "pods"]) /\
    (m = ∅ <-> ~ In (EPrint MsgMetricsHeader) (snd (get_prometheus_metrics self w h))).
Proof.
  unfold get_prometheus_metrics.
  destruct (prometheus self) as [prom|].
  2: { exists ∅. cbn. split; [reflexivity |]. split; [left; reflexivity |].
       split; [intros _ [H | []]; discriminate | reflexivity]. }
  metrics_cases.
  all: eexists; split; [reflexivity |].
  all: try (split; [left; reflexivity |];
            split; [intros _ H; repeat destruct H as [H | H]; try discriminate; destruct H
                   | reflexivity]).
  split.
  - right. rewrite !dom_insert_L, dom_empty_L. cbn. set_solver.
  - split.
    + intros Hm. exfalso.
      assert (Hl : (<["pods":=a6]> (<["disk":=a4]> (<["memory":=a2]> (<["cpu":=a0]> ∅)))
                    : gmap string json) !! "pods" = Some a6) by apply lookup_insert_eq.
      rewrite Hm, lookup_empty in Hl. discriminate.
    + intros H. exfalso. apply H. do 4 right. left. reflexivity.
Qed.

Lemma get_prometheus_metrics_shape_witness :
  exists m,
    fst (get_prometheus_metrics connected_monitor world_ready []) = Ok m /\
    dom m = list_to_set ["cpu"; "memory"; "disk"; "pods"].
Proof.
  destruct (get_prometheus_metrics_shape connected_monitor world_ready [])
    as [m [Hm [[Hempty | Hdom] Hiff]]].
  - exfalso. apply (proj1 Hiff Hempty). vm_compute. do 4 right. left. reflexivity.
  - exists m. split; assumption.
Defined.

(** * The other methods *)

Ltac unfold_p :=
  unfold tryP, bindP, retP, say, runP, kube_configP, writeP, path_exists, chmod,
    input, browser_open, assign_prometheus, assign_k8s_config, method in *.

(** Case analysis on the answers of the host, with the methods of the
    first part kept as single steps. *)
Ltac host_simpl :=
  cbn -[get_prometheus_url deploy_application get_prometheus_metrics
        check_deployment_status contains strip script_content app_content
        requirements size metric_items] in *.

Ltac host_cases := unfold_p; repeat (host_simpl; case_step); host_simpl.

Lemma get_prometheus_url_total self w h :
  exists u, fst (get_prometheus_url self w h) = Ok u.
Proof.
  unfold get_prometheus_url, try_except, bind, kube_config, list_service, ret.
  destruct (load_kube_config w h) as [[]|e0]; cbn; [| eauto].
  destruct (list_namespaced_service w _ (namespace self) "app=prometheus")
    as [items|e1]; cbn; [| eauto].
  rewrite get_prometheus_url_loop_first.
  destruct (first_assigned_port items); cbn; eauto.
Qed.

(** The observations distribute over the interactions of two steps, and
    a method of the first part makes none of the new calls. *)
Lemma connect_answers_app acts acts' :
  connect_answers (acts ++ acts') = connect_answers acts ++ connect_answers acts'.
Proof.
  induction acts as [|a acts IH]; [reflexivity |].
  destruct a; cbn; rewrite IH; reflexivity.
Qed.

Lemma connect_answers_base es : connect_answers (map Base es) = [].
Proof. induction es as [|e es IH]; [reflexivity | exact IH]. Qed.

Lemma inputs_read_app acts acts' :
  inputs_read (acts ++ acts') = inputs_read acts ++ inputs_read acts'.
Proof.
  induction acts as [|a acts IH]; [reflexivity |].
  destruct a as [| | | | [line|e] | |]; cbn; rewrite IH; reflexivity.
Qed.

Lemma inputs_read_base es : inputs_read (map Base es) = [].
Proof. induction es as [|e es IH]; [reflexivity | exact IH]. Qed.

Lemma commands_app acts acts' :
  commands (acts ++ acts') = commands acts ++ commands acts'.
Proof.
  induction acts as [|a acts IH]; [reflexivity |].
  destruct a as [[]| | | | | |]; cbn; rewrite IH; reflexivity.
Qed.

Lemma commands_base es : commands (map Base es) = launched es.
Proof.
  induction es as [|e es IH]; [reflexivity |].
  destruct e; cbn; rewrite IH; reflexivity.
Qed.

Lemma browser_opened_app acts acts' :
  browser_opened (acts ++ acts') = browser_opened acts ++ browser_opened acts'.
Proof.
  induction acts as [|a acts IH]; [reflexivity |].
  destruct a; cbn; rewrite IH; reflexivity.
Qed.

Lemma browser_opened_base es : browser_opened (map Base es) = [].
Proof. induction es as [|e es IH]; [reflexivity | exact IH]. Qed.

Lemma files_written_app acts acts' :
  files_written (acts ++ acts') = files_written acts ++ files_written acts'.
Proof.
  induction acts as [|a acts IH]; [reflexivity |].
  destruct a as [[]| | | | | |]; cbn; rewrite IH; reflexivity.
Qed.

Lemma metric_query_app acts acts' :
  existsb is_metric_query (acts ++ acts') =
    existsb is_metric_query acts || existsb is_metric_query acts'.
Proof. apply existsb_app. Qed.

Lemma metric_query_base es :
  existsb is_metric_query (map Base es) = existsb is_custom_query es.
Proof.
  induction es as [|e es IH]; [reflexivity |].
  cbn. rewrite IH. destruct e; reflexivity.
Qed.

Create Rewrite HintDb traces.
#[local] Hint Rewrite connect_answers_app connect_answers_base inputs_read_app
  inputs_read_base commands_app commands_base browser_opened_app browser_opened_base
  files_written_app metric_query_app metric_query_base launched_app : traces.

(** ** [connect_prometheus] *)

(** X12: [connect_prometheus] never raises and the cluster cannot make
    it fail: it returns [True], with the handle of the monitor set to
    the URL of the resolver (SSL checks off), unless the constructor of
    the client raises; then it returns [False] and the monitor is as
    before.  The client is constructed exactly once. *)
Theorem connect_prometheus_outcome H past self :
  exists u answer,
    fst (get_prometheus_url self (world_at H past) []) = Ok u /\
    connect_answers (snd (connect_prometheus H past self)) = [(u, answer)] /\
    (answer = Ok tt ->
     fst (connect_prometheus H past self) = (Ok true, with_prometheus self u)) /\
    (forall e, answer = Raise e ->
               fst (connect_prometheus H past self) = (Ok false, self)).
Proof.
  destruct (get_prometheus_url_total self (world_at H past) []) as [u Hu].
  exists u. revert Hu.
  unfold connect_prometheus. host_cases; intros; simplify_eq.
  - destruct a0. exists (Ok tt). split; [reflexivity |].
    autorewrite with traces. cbn.
    split; [reflexivity | split; [reflexivity | discriminate]].
  - exists (Raise e). split; [reflexivity |].
    autorewrite with traces. cbn.
    split; [reflexivity | split; [discriminate | reflexivity]].
Qed.

Lemma connect_prometheus_outcome_witness :
  fst (connect_prometheus (host_without_client []) [] monitor) = (Ok false, monitor) /\
  fst (connect_prometheus (example_host running_out all_succeed true []) [] monitor)
    = (Ok true, with_prometheus monitor fallback_url).
Proof.
  split.
  - destruct (connect_prometheus_outcome (host_without_client []) [] monitor)
      as [u [answer [Hu [Hanswer [_ Hraise]]]]].
    apply (Hraise (OtherException "ValueError")).
    vm_compute in Hanswer. inversion Hanswer. reflexivity || (symmetry; assumption).
  - destruct (connect_prometheus_outcome (example_host running_out all_succeed true []) [] monitor)
      as [u [answer [Hu [Hanswer [Hok _]]]]].
    vm_compute in Hu, Hanswer. inversion Hu; subst u. inversion Hanswer.
    apply Hok. symmetry. assumption.
Defined.

(** What the resolver does on the way: no file, no query, and at most
    the [minikube ip] command. *)
Lemma get_prometheus_url_events self w h :
  exists u es,
    get_prometheus_url self w h = (Ok u, es) /\
    (launched es = [] \/ launched es = [["minikube"; "ip"]]) /\
    existsb is_custom_query es = false /\
    files_written (map Base es) = [] /\
    kube_config_answer (map Base es) = Some (load_kube_config w h).
Proof.
  unfold get_prometheus_url, try_except, bind, kube_config, list_service, ret.
  destruct (load_kube_config w h) as [[]|e0]; cbn.
  2: { do 2 eexists. split; [reflexivity |]. cbn. auto. }
  destruct (list_namespaced_service w _ (namespace self) "app=prometheus")
    as [items|e1]; cbn.
  2: { do 2 eexists. split; [reflexivity |]. cbn. auto. }
  rewrite get_prometheus_url_loop_first.
  destruct (first_assigned_port items); cbn.
  all: do 2 eexists; (split; [reflexivity |]); cbn; auto.
Qed.

(** What [connect_prometheus] does on the way. *)
Lemma connect_prometheus_summary H past self :
  exists b self' acts,
    connect_prometheus H past self = (Ok b, self', acts) /\
    k8s_config self' = k8s_config self /\
    namespace self' = namespace self /\
    (b = false -> self' = self) /\
    inputs_read acts = [] /\
    browser_opened acts = [] /\
    files_written acts = [] /\
    (commands acts = [] \/ commands acts = [["minikube"; "ip"]]) /\
    existsb is_metric_query acts = false.
Proof.
  destruct (get_prometheus_url_events self (world_at H past) [])
    as (u & es & Hurl & Hrun & Hq & Hw & _).
  unfold connect_prometheus. unfold_p. rewrite Hurl. host_simpl.
  destruct (host_connect H (past ++ map Base es) u) as [[]|e]; host_simpl.
  all: do 3 eexists; (split; [reflexivity |]).
  all: autorewrite with traces; cbn; rewrite ?Hw, ?Hq, ?app_nil_r.
  all: repeat split; try discriminate; auto.
Qed.

Ltac host_simpl2 :=
  cbn -[get_prometheus_url deploy_application get_prometheus_metrics
        check_deployment_status contains strip script_content app_content
        requirements size metric_items connect_prometheus] in *.

(** ** [setup_environment] *)

(** X13: [setup_environment] starts the cluster exactly when the output
    of [minikube status] does not contain the word Running. *)
Theorem setup_environment_starts_stopped_cluster H past self result :
  host_run H past argv_minikube_status = Ok result ->
  (In argv_minikube_start (commands (snd (setup_environment H past self)))
   <-> contains "Running" (stdout result) = false).
Proof.
  intros Hstatus. unfold setup_environment. unfold_p. rewrite Hstatus. host_simpl2.
  destruct (contains "Running" (stdout result)) eqn:Hrunning; host_simpl2.
  all: repeat (case_step; host_simpl2).
  all: repeat match goal with
         | H : connect_prometheus ?h ?p ?s = _ |- _ =>
             let Hc := fresh "Hc" in
             destruct (connect_prometheus_summary h p s)
               as (? & ? & ? & Hc & _ & _ & _ & _ & _ & _ & [Hcmd | Hcmd] & _);
             rewrite Hc in H; inversion H; subst; clear H Hc
         end.
  all: autorewrite with traces; cbn; rewrite ?Hcmd; cbn.
  all: split; intros; try discriminate; try tauto.
  all: repeat match goal with
         | H : _ \/ _ |- _ => destruct H
         | H : False |- _ => destruct H
         end; try discriminate; auto.
Qed.

Lemma setup_environment_starts_stopped_cluster_witness :
  commands (snd (setup_environment (example_host stopped_out all_succeed true []) [] monitor))
    = [argv_minikube_status; argv_minikube_start] /\
  In argv_minikube_start
    (commands (snd (setup_environment (example_host stopped_out all_succeed true []) [] monitor))).
Proof.
  split; [vm_compute; reflexivity |].
  apply (proj2 (setup_environment_starts_stopped_cluster
                  (example_host stopped_out all_succeed true []) [] monitor
                  {| returncode := 0; stdout := "host: Stopped" +:+ nl; stderr := EmptyString |}
                  eq_refl)).
  vm_compute; reflexivity.
Defined.

(** X14: [setup_environment] never raises, and it succeeds exactly when
    the kube config could be loaded: neither the exit status of a
    command nor a failed connection to Prometheus makes it return
    [False].  After [True] the cluster configuration is stored; after
    [False] the monitor is as before. *)
Theorem setup_environment_outcome H past self :
  exists b,
    fst (fst (setup_environment H past self)) = Ok b /\
    (b = true <-> kube_config_answer (snd (setup_environment H past self)) = Some (Ok tt)) /\
    (b = true -> k8s_config (snd (fst (setup_environment H past self))) = Some tt) /\
    (b = false -> snd (fst (setup_environment H past self)) = self).
Proof.
  unfold setup_environment. unfold_p. host_simpl2.
  repeat (case_step; host_simpl2).
  all: repeat match goal with
         | H : connect_prometheus ?h ?p ?s = _ |- _ =>
             let Hc := fresh "Hc" in
             destruct (connect_prometheus_summary h p s)
               as (? & ? & ? & Hc & Hk & _);
             rewrite Hc in H; inversion H; subst; clear H Hc
         end.
  all: eexists; split; [reflexivity |].
  all: cbn in *; repeat split; intros; try discriminate; try reflexivity; try assumption.
  all: try (destruct a1; reflexivity).
  all: try (destruct a0; reflexivity).
Qed.

Lemma setup_environment_outcome_witness :
  fst (fst (setup_environment (host_without_client []) [] monitor)) = Ok true /\
  prometheus (snd (fst (setup_environment (host_without_client []) [] monitor))) = None /\
  k8s_config (snd (fst (setup_environment (host_without_client []) [] monitor))) = Some tt.
Proof.
  destruct (setup_environment_outcome (host_without_client []) [] monitor)
    as [b [Hb [Hload [Hcfg _]]]].
  assert (Htrue : b = true) by (apply Hload; vm_compute; reflexivity).
  subst b. split; [exact Hb |]. split; [vm_compute; reflexivity | apply Hcfg; reflexivity].
Defined.

(** ** [run_jenkins_build] *)

(** X15: [run_jenkins_build] never raises and leaves the monitor alone.
    It writes the build script exactly when [os.path.exists] says the
    script is missing, so an existing script is never overwritten; and
    it returns [True] exactly when the script was run and exited with
    status 0. *)
Theorem run_jenkins_build_outcome H past self :
  exists b present,
    fst (run_jenkins_build H past self) = (Ok b, self) /\
    exists_answers (snd (run_jenkins_build H past self)) = [("jenkins-build.sh", present)] /\
    files_written (snd (run_jenkins_build H past self))
      = (if present then [] else ["jenkins-build.sh"]) /\
    (b = true <->
     exists result,
       command_answer argv_jenkins (snd (run_jenkins_build H past self)) = Some (Ok result)
       /\ returncode result = 0).
Proof.
  unfold run_jenkins_build, create_jenkins_script. unfold_p. host_simpl.
  destruct (host_path_exists H (past ++ [ASay LineJenkinsStarting]) "jenkins-build.sh").
  all: repeat (host_simpl; case_step); host_simpl.
  all: do 2 eexists; (split; [reflexivity |]); (split; [reflexivity |]);
       (split; [reflexivity |]).
  all: split; [intros Hb | intros [result [Hrun Hrc]]]; simplify_eq; try lia.
  all: try (eexists; split; [reflexivity | lia]).
  all: try reflexivity.
Qed.

Lemma run_jenkins_build_outcome_witness :
  fst (run_jenkins_build (example_host running_out jenkins_fails true []) [] monitor)
    = (Ok false, monitor) /\
  files_written (snd (run_jenkins_build (example_host running_out jenkins_fails true []) [] monitor))
    = [].
Proof.
  destruct (run_jenkins_build_outcome (example_host running_out jenkins_fails true []) [] monitor)
    as [b [present [Hb [Hpresent [Hfiles Hiff]]]]].
  vm_compute in Hpresent. inversion Hpresent; subst present.
  split; [| exact Hfiles].
  rewrite Hb. destruct b; [| reflexivity].
  destruct (proj1 Hiff eq_refl) as [result [Hrun Hrc]].
  vm_compute in Hrun. inversion Hrun; subst result. discriminate Hrc.
Defined.

(** ** [open_grafana] *)

(** X16: [open_grafana] never raises and leaves the monitor alone.  The
    browser is opened exactly when the [minikube service] command exits
    with status 0, and then on the text it printed, stripped; when the
    command fails or cannot be launched, the browser is not opened. *)
Theorem open_grafana_outcome H past self :
  fst (open_grafana H past self) = (Ok tt, self) /\
  (forall result,
      command_answer argv_grafana (snd (open_grafana H past self)) = Some (Ok result) ->
      browser_opened (snd (open_grafana H past self))
        = (if returncode result =? 0 then [strip (stdout result)] else [])) /\
  (forall e,
      command_answer argv_grafana (snd (open_grafana H past self)) = Some (Raise e) ->
      browser_opened (snd (open_grafana H past self)) = []).
Proof.
  unfold open_grafana. host_cases.
  all: repeat match goal with x : unit |- _ => destruct x end.
  all: split; [reflexivity |].
  all: split; intros; simplify_eq; try reflexivity.
  all: match goal with
       | H : (returncode ?r =? 0) = _ |- _ => rewrite H; reflexivity
       end.
Qed.

Lemma open_grafana_outcome_witness :
  browser_opened (snd (open_grafana (example_host running_out all_succeed true []) [] monitor))
    = ["http://192.168.49.2:31234"] /\
  browser_opened (snd (open_grafana (example_host running_out grafana_fails true []) [] monitor))
    = [].
Proof.
  split.
  - rewrite (proj1 (proj2 (open_grafana_outcome
               (example_host running_out all_succeed true []) [] monitor))
               {| returncode := 0; stdout := "http://192.168.49.2:31234" +:+ nl;
                  stderr := EmptyString |});
      vm_compute; reflexivity.
  - rewrite (proj1 (proj2 (open_grafana_outcome
               (example_host running_out grafana_fails true []) [] monitor))
               {| returncode := 1; stdout := "http://192.168.49.2:31234" +:+ nl;
                  stderr := EmptyString |});
      vm_compute; reflexivity.
Defined.

(** ** The menu *)

Lemma existsb_count_zero p es : count_events p es = 0%nat -> existsb p es = false.
Proof.
  unfold count_events. induction es as [|e es IH]; [reflexivity |].
  cbn. destruct (p e); cbn; [discriminate | exact IH].
Qed.

Lemma check_deployment_status_summary self w h :
  exists b es,
    check_deployment_status self w h = (Ok b, es) /\ existsb is_custom_query es = false.
Proof.
  destruct (check_deployment_status_total self w h) as [b Hb].
  pose proof (check_deployment_status_no_query self w h) as Hq.
  destruct (check_deployment_status self w h) as [r es]. cbn in *. subst r.
  exists b, es. split; [reflexivity | apply existsb_count_zero, Hq].
Qed.

Lemma deploy_application_summary self w h :
  exists b es,
    deploy_application self w h = (Ok b, es) /\ existsb is_custom_query es = false.
Proof.
  unfold deploy_application, fix_deployment_file. unfold_m.
  repeat (cbn -[check_deployment_status deployment_content] in *; case_step);
    cbn -[check_deployment_status deployment_content] in *.
  all: repeat match goal with
         | H : check_deployment_status ?s ?w' ?h' = _ |- _ =>
             let Hc := fresh "Hc" in
             let Hq := fresh "Hq" in
             destruct (check_deployment_status_summary s w' h') as (? & ? & Hc & Hq);
             rewrite Hc in H; inversion H; subst; clear H Hc
         end.
  all: do 2 eexists; split; [reflexivity |].
  all: cbn; rewrite ?existsb_app, ?Hq; reflexivity.
Qed.

Lemma get_prometheus_metrics_summary self w h :
  exists m es,
    get_prometheus_metrics self w h = (Ok m, es) /\
    (prometheus self = None -> existsb is_custom_query es = false).
Proof.
  unfold get_prometheus_metrics.
  destruct (prometheus self) as [prom|].
  - metrics_cases; do 2 eexists; (split; [reflexivity | discriminate]).
  - do 2 eexists. split; reflexivity.
Qed.

(** The loop over the items prints one line per item. *)
Lemma say_metrics_lines items : forall H past self,
  say_metrics items H past self =
    (Ok tt, self, map (fun kv => ASay (LineMetric (fst kv) (snd kv))) items).
Proof.
  induction items as [|[key value] items IH]; intros H past self; [reflexivity |].
  cbn [say_metrics]. unfold bindP, say. rewrite IH. reflexivity.
Qed.

Lemma lines_only items :
  let acts := map (fun kv : string * json => ASay (LineMetric (fst kv) (snd kv))) items in
  inputs_read acts = [] /\ existsb is_metric_query acts = false.
Proof. induction items as [|kv items [IH1 IH2]]; cbn; auto. Qed.

Ltac menu_simpl :=
  cbn -[get_prometheus_url deploy_application get_prometheus_metrics
        check_deployment_status contains strip script_content app_content
        requirements size metric_items say_metrics String.eqb] in *.

(** Replace a call of a method of the first part by its summary. *)
Ltac use_summary :=
  match goal with
  | H : get_prometheus_url ?s ?w ?h = _ |- _ =>
      let Hc := fresh "Hc" in
      destruct (get_prometheus_url_events s w h) as (? & ? & Hc & _ & ? & _ & _);
      rewrite Hc in H; inversion H; subst; clear H Hc
  | H : deploy_application ?s ?w ?h = _ |- _ =>
      let Hc := fresh "Hc" in
      destruct (deploy_application_summary s w h) as (? & ? & Hc & ?);
      rewrite Hc in H; inversion H; subst; clear H Hc
  | H : check_deployment_status ?s ?w ?h = _ |- _ =>
      let Hc := fresh "Hc" in
      destruct (check_deployment_status_summary s w h) as (? & ? & Hc & ?);
      rewrite Hc in H; inversion H; subst; clear H Hc
  | H : get_prometheus_metrics ?s ?w ?h = _ |- _ =>
      let Hc := fresh "Hc" in
      let Hnone := fresh "Hnone" in
      destruct (get_prometheus_metrics_summary s w h) as (? & ? & Hc & Hnone);
      rewrite Hc in H; inversion H; subst; clear H Hc
  end.

Ltac menu_cases :=
  unfold dashboard_choice, setup_environment, connect_prometheus, run_jenkins_build,
    open_grafana, create_app_py, create_requirements, create_jenkins_script;
  unfold_p;
  repeat (progress (menu_simpl; rewrite ?say_metrics_lines; try case_step));
  menu_simpl; repeat use_summary.

(** Which branch of the menu was taken. *)
Ltac which_choice :=
  repeat match goal with
    | H : (_ =? _)%string = true |- _ => apply String.eqb_eq in H; subst
    | H : (_ =? _)%string = false |- _ => apply String.eqb_neq in H
    end.

(** What one pass through the menu does, whatever the choice. *)
Lemma dashboard_choice_summary c H past self :
  exists r self' acts,
    dashboard_choice c H past self = (r, self', acts) /\
    inputs_read acts = [] /\
    (r = Ok true <-> c = "8") /\
    (forall e, r = Raise e ->
               exists before path content,
                 In path created_files /\
                 acts = before ++ [Base (EWriteFile path content (Raise e))]) /\
    (c <> "1" -> self' = self) /\
    (c <> "1" -> prometheus self = None -> existsb is_metric_query acts = false).
Proof.
  menu_cases.
  all: do 3 eexists; (split; [reflexivity |]).
  all: which_choice.
  all: try match goal with
         | |- context [map _ (metric_items ?m)] =>
             destruct (lines_only (metric_items m)) as [Hl1 Hl2]; cbn in Hl1, Hl2
         end.
  all: repeat split; intros; try discriminate; try congruence.
  all: repeat (progress (autorewrite with traces; cbn)).
  all: rewrite ?Hl1, ?Hl2, ?orb_false_r; cbn.
  all: simplify_eq; auto.
  all: try (eexists [], _, _; refine (conj _ eq_refl); cbn; tauto).
  all: try (eexists [_], _, _; refine (conj _ eq_refl); cbn; tauto).
  all: try (eexists [_; _], _, _; refine (conj _ eq_refl); cbn; tauto).
  all: try (eexists [_; _; _], _, _; refine (conj _ eq_refl); cbn; tauto).
  all: try (eexists [_; _; _; _], _, _; refine (conj _ eq_refl); cbn; tauto).
Qed.


(** One pass of the loop: the menu, the line read, the branch taken, and
    then the rest of the loop. *)
Lemma dashboard_loop_pass fuel H past self :
  dashboard_loop (S fuel) H past self =
    match host_input H (past ++ menu_lines) with
    | Raise e => (Raise e, self, menu_lines ++ [AInput (Raise e)])
    | Ok line =>
        let '(r, self1, acts) :=
          dashboard_choice (strip line) H (past ++ menu_lines ++ [AInput (Ok line)]) self in
        match r with
        | Raise e => (Raise e, self1, menu_lines ++ AInput (Ok line) :: acts)
        | Ok true => (Ok (Some tt), self1, menu_lines ++ AInput (Ok line) :: acts)
        | Ok false =>
            let '(r2, self2, acts2) :=
              dashboard_loop fuel H (past ++ menu_lines ++ AInput (Ok line) :: acts) self1 in
            (r2, self2, menu_lines ++ AInput (Ok line) :: acts ++ acts2)
        end
    end.
Proof.
  cbn [dashboard_loop]. unfold bindP, say, input, retP, menu_lines.
  cbn -[dashboard_choice dashboard_loop strip].
  rewrite <- ?app_assoc. cbn -[dashboard_choice dashboard_loop strip].
  destruct (host_input H _) as [line|e]; [| reflexivity].
  cbn -[dashboard_choice dashboard_loop strip].
  rewrite <- ?app_assoc. cbn -[dashboard_choice dashboard_loop strip].
  destruct (dashboard_choice (strip line) H _ self) as [[[[]|e] self1] acts];
    cbn -[dashboard_loop]; rewrite <- ?app_assoc; cbn -[dashboard_loop];
    rewrite ?app_nil_r; try reflexivity.
  destruct (dashboard_loop fuel H _ self1) as [[r2 self2] acts2].
  reflexivity.
Qed.

Lemma inputs_read_menu : inputs_read menu_lines = [].
Proof. reflexivity. Qed.

Lemma metric_query_menu : existsb is_metric_query menu_lines = false.
Proof. reflexivity. Qed.

(** Destructs the pass at the head of the loop into its four outcomes:
    end of input, a branch that raised, the exit, and a further pass. *)
Ltac loop_pass H past self IH :=
  rewrite dashboard_loop_pass;
  let line := fresh "line" in
  let e := fresh "e" in
  destruct (host_input H (past ++ menu_lines)) as [line|e];
  [ let r := fresh "r" in
    let self1 := fresh "self1" in
    let acts := fresh "acts" in
    let Hchoice := fresh "Hchoice" in
    let Hin := fresh "Hin" in
    let Hstop := fresh "Hstop" in
    let Hraise := fresh "Hraise" in
    let Hself := fresh "Hself" in
    let Hquery := fresh "Hquery" in
    destruct (dashboard_choice_summary (strip line) H
                (past ++ menu_lines ++ [AInput (Ok line)]) self)
      as (r & self1 & acts & Hchoice & Hin & Hstop & Hraise & Hself & Hquery);
    rewrite Hchoice;
    destruct r as [[]|];
    [ | let r2 := fresh "r2" in
        let self2 := fresh "self2" in
        let acts2 := fresh "acts2" in
        specialize (IH H (past ++ menu_lines ++ AInput (Ok line) :: acts) self1);
        destruct (dashboard_loop _ H (past ++ menu_lines ++ AInput (Ok line) :: acts) self1)
          as [[r2 self2] acts2]
      | ]
  | ];
  cbn [fst snd] in *.

(** The lines read by the loop: at most one per pass, and the loop ends
    at the first line that reads 8. *)
Lemma dashboard_loop_inputs fuel : forall H past self,
  (length (inputs_read (snd (dashboard_loop fuel H past self))) <= fuel)%nat /\
  (fst (fst (dashboard_loop fuel H past self)) = Ok (Some tt) ->
   exists before last,
     inputs_read (snd (dashboard_loop fuel H past self)) = before ++ [last] /\
     strip last = "8" /\ Forall (fun line => strip line <> "8") before) /\
  (fst (fst (dashboard_loop fuel H past self)) = Ok None ->
   length (inputs_read (snd (dashboard_loop fuel H past self))) = fuel /\
   Forall (fun line => strip line <> "8") (inputs_read (snd (dashboard_loop fuel H past self)))).
Proof.
  induction fuel as [|fuel IH]; intros H past self.
  - cbn. repeat split; auto; discriminate.
  - loop_pass H past self IH.
    all: repeat (progress (autorewrite with traces;
                           rewrite ?inputs_read_menu, ?Hin; cbn)).
    + split; [lia |]. split; [| discriminate].
      intros _. exists [], line. repeat split; auto. apply Hstop. reflexivity.
    + destruct IH as (Hlen & Hsome & Hnone).
      assert (Hne : strip line <> "8").
      { intros Heq. apply Hstop in Heq. discriminate. }
      split; [lia |]. split.
      * intros Hr. destruct (Hsome Hr) as (before & last & -> & Hlast & Hbefore).
        exists (line :: before), last. repeat split; auto.
      * intros Hr. destruct (Hnone Hr) as [Hl Hall].
        split; [lia | constructor; assumption].
    + split; [lia |]. split; discriminate.
    + split; [lia |]. split; discriminate.
Qed.

(** An exception leaves the loop only from [input] or from a file
    write, and it is the last thing that happened. *)
Lemma dashboard_loop_raises fuel : forall H past self e,
  fst (fst (dashboard_loop fuel H past self)) = Raise e ->
  exists before,
    snd (dashboard_loop fuel H past self) = before ++ [AInput (Raise e)] \/
    exists path content,
      In path created_files /\
      snd (dashboard_loop fuel H past self)
        = before ++ [Base (EWriteFile path content (Raise e))].
Proof.
  induction fuel as [|fuel IH]; intros H past self e.
  - discriminate.
  - loop_pass H past self IH; intros Hr; try discriminate.
    + destruct (IH e Hr) as [before [-> | (path & content & Hpath & ->)]].
      * exists (menu_lines ++ AInput (Ok line) :: acts ++ before). left.
        rewrite <- !app_assoc. cbn. rewrite <- !app_assoc. reflexivity.
      * exists (menu_lines ++ AInput (Ok line) :: acts ++ before). right.
        exists path, content. split; [exact Hpath |].
        rewrite <- !app_assoc. cbn. rewrite <- !app_assoc. reflexivity.
    + injection Hr as ->.
      destruct (Hraise e eq_refl) as (before & path & content & Hpath & ->).
      exists (menu_lines ++ AInput (Ok line) :: before). right.
      exists path, content. split; [exact Hpath |].
      rewrite <- !app_assoc. reflexivity.
    + injection Hr as ->. exists menu_lines. left. reflexivity.
Qed.

(** Without the choice 1 the monitor stays as it is, and a monitor
    without a handle sends no query. *)
Lemma dashboard_loop_without_setup fuel : forall H past self,
  Forall (fun line => strip line <> "1") (inputs_read (snd (dashboard_loop fuel H past self))) ->
  snd (fst (dashboard_loop fuel H past self)) = self /\
  (prometheus self = None ->
   existsb is_metric_query (snd (dashboard_loop fuel H past self)) = false).
Proof.
  induction fuel as [|fuel IH]; intros H past self.
  - cbn. auto.
  - loop_pass H past self IH.
    all: repeat (progress (autorewrite with traces;
                           rewrite ?inputs_read_menu, ?metric_query_menu, ?Hin; cbn)).
    all: intros Hall; try (inversion Hall as [|? ? Hline Hrest]; subst).
    + specialize (Hself Hline). subst self1.
      split; [reflexivity |]. intros Hp. apply (Hquery Hline Hp).
    + specialize (Hself Hline). subst self1.
      destruct (IH Hrest) as [-> Hq].
      split; [reflexivity |]. intros Hp.
      rewrite (Hquery Hline Hp), (Hq Hp). reflexivity.
    + specialize (Hself Hline). subst self1.
      split; [reflexivity |]. intros Hp. apply (Hquery Hline Hp).
    + auto.
Qed.

Lemma dashboard_loop_banner fuel H past self :
  dashboard fuel H past self =
    let '(r, self', acts) := dashboard_loop fuel H (past ++ banner_lines) self in
    (r, self', banner_lines ++ acts).
Proof.
  unfold dashboard, bindP, say, banner_lines. cbn -[dashboard_loop].
  rewrite <- ?app_assoc. cbn -[dashboard_loop].
  destruct (dashboard_loop fuel H _ self) as [[r self'] acts]. reflexivity.
Qed.

Lemma main_dashboard fuel H past :
  main fuel H past =
    let '(r, self', acts) :=
      dashboard fuel H (past ++ program_lines) (init "monitoring") in
    (r, self', program_lines ++ acts).
Proof.
  unfold main, bindP, say, program_lines. cbn -[dashboard].
  rewrite <- ?app_assoc. cbn -[dashboard].
  destruct (dashboard fuel H _ (init "monitoring")) as [[r self'] acts]. reflexivity.
Qed.

(** X17: the menu loop ends normally only on the choice 8: when
    [dashboard] returns, the last line read, stripped, is 8 and no line
    before it was; and the passes allowed are used up only after as many
    lines were read, none of which was 8. *)
Theorem dashboard_ends_on_exit fuel H past self :
  (fst (fst (dashboard fuel H past self)) = Ok (Some tt) ->
   exists before last,
     inputs_read (snd (dashboard fuel H past self)) = before ++ [last] /\
     strip last = "8" /\ Forall (fun line => strip line <> "8") before) /\
  (fst (fst (dashboard fuel H past self)) = Ok None ->
   length (inputs_read (snd (dashboard fuel H past self))) = fuel /\
   Forall (fun line => strip line <> "8") (inputs_read (snd (dashboard fuel H past self)))).
Proof.
  rewrite dashboard_loop_banner.
  destruct (dashboard_loop_inputs fuel H (past ++ banner_lines) self) as (_ & Hsome & Hnone).
  destruct (dashboard_loop fuel H (past ++ banner_lines) self) as [[r self'] acts].
  cbn [fst snd] in *. rewrite inputs_read_app. cbn.
  split; assumption.
Qed.

Lemma dashboard_ends_on_exit_witness :
  fst (fst (dashboard 5 (example_host running_out all_succeed true ["x"; " 8 "; "2"]) [] monitor))
    = Ok (Some tt) /\
  inputs_read (snd (dashboard 5 (example_host running_out all_succeed true ["x"; " 8 "; "2"])
                      [] monitor)) = ["x"; " 8 "].
Proof.
  assert (Hr : fst (fst (dashboard 5 (example_host running_out all_succeed true
                                        ["x"; " 8 "; "2"]) [] monitor)) = Ok (Some tt))
    by (vm_compute; reflexivity).
  split; [exact Hr |].
  destruct (proj1 (dashboard_ends_on_exit 5 (example_host running_out all_succeed true
                                             ["x"; " 8 "; "2"]) [] monitor) Hr)
    as (before & last & Hin & _).
  vm_compute. reflexivity.
Defined.

(** X18: an exception leaves [dashboard] only from [input] (end of
    input) or from a file write of menu item 6, and then it is the last
    thing the program did; the failures of every other menu item are
    caught. *)
Theorem dashboard_raises_from_input_or_write fuel H past self e :
  fst (fst (dashboard fuel H past self)) = Raise e ->
  exists before,
    snd (dashboard fuel H past self) = before ++ [AInput (Raise e)] \/
    exists path content,
      In path created_files /\
      snd (dashboard fuel H past self)
        = before ++ [Base (EWriteFile path content (Raise e))].
Proof.
  rewrite dashboard_loop_banner.
  pose proof (dashboard_loop_raises fuel H (past ++ banner_lines) self e) as Hloop.
  destruct (dashboard_loop fuel H (past ++ banner_lines) self) as [[r self'] acts].
  cbn [fst snd] in *. intros Hr.
  destruct (Hloop Hr) as [before [-> | (path & content & Hpath & ->)]].
  - exists (banner_lines ++ before). left. rewrite <- app_assoc. reflexivity.
  - exists (banner_lines ++ before). right. exists path, content.
    split; [exact Hpath | rewrite <- app_assoc; reflexivity].
Qed.

Lemma dashboard_raises_from_input_or_write_witness :
  fst (fst (dashboard 5 (host_disk_full ["4"; "6"; "8"]) [] monitor)) = Raise OSError /\
  exists before,
    snd (dashboard 5 (host_disk_full ["4"; "6"; "8"]) [] monitor)
      = before ++ [AInput (Raise OSError)] \/
    exists path content,
      In path created_files /\
      snd (dashboard 5 (host_disk_full ["4"; "6"; "8"]) [] monitor)
        = before ++ [Base (EWriteFile path content (Raise OSError))].
Proof.
  assert (Hr : fst (fst (dashboard 5 (host_disk_full ["4"; "6"; "8"]) [] monitor))
               = Raise OSError) by (vm_compute; reflexivity).
  split; [exact Hr |].
  apply (dashboard_raises_from_input_or_write 5 (host_disk_full ["4"; "6"; "8"]) []
           monitor OSError Hr).
Defined.

(** X19: a run of the program sends no query to Prometheus unless the
    user chose 1 (the setup) at some point, and until then the monitor
    is the one [main] created: no handle, no cluster configuration. *)
Theorem main_no_query_before_setup fuel H past :
  Forall (fun line => strip line <> "1") (inputs_read (snd (main fuel H past))) ->
  existsb is_metric_query (snd (main fuel H past)) = false /\
  snd (fst (main fuel H past)) = init "monitoring".
Proof.
  rewrite main_dashboard, dashboard_loop_banner.
  pose proof (dashboard_loop_without_setup fuel H ((past ++ program_lines) ++ banner_lines)
                (init "monitoring")) as Hloop.
  destruct (dashboard_loop fuel H ((past ++ program_lines) ++ banner_lines) (init "monitoring"))
    as [[r self'] acts].
  cbn [fst snd] in *. rewrite !inputs_read_app, !metric_query_app. cbn.
  intros Hall. destruct (Hloop Hall) as [-> Hq].
  split; [apply Hq; reflexivity | reflexivity].
Qed.

Lemma main_no_query_before_setup_witness :
  inputs_read (snd (main 5 (example_host running_out all_succeed true ["3"; "2"; "8"]) []))
    = ["3"; "2"; "8"] /\
  existsb is_metric_query
    (snd (main 5 (example_host running_out all_succeed true ["3"; "2"; "8"]) [])) = false.
Proof.
  assert (Hin : inputs_read (snd (main 5 (example_host running_out all_succeed true
                                            ["3"; "2"; "8"]) [])) = ["3"; "2"; "8"])
    by (vm_compute; reflexivity).
  split; [exact Hin |].
  apply (main_no_query_before_setup 5 (example_host running_out all_succeed true
                                         ["3"; "2"; "8"]) []).
  rewrite Hin. repeat constructor; vm_compute; discriminate.
Defined.

(** X20: menu item 6 writes [app.py], [requirements.txt] and
    [jenkins-build.sh] in this order, whether they exist or not, and
    stops at the first write that raises: the exception leaves the item
    and the files after it are not written; when the item returns, all
    three were written and the loop goes on. *)
Theorem create_files_choice H past self :
  (forall e,
      host_write_file H past "app.py" app_content = Raise e ->
      dashboard_choice "6" H past self =
        (Raise e, self, [Base (EWriteFile "app.py" app_content (Raise e))])) /\
  (host_write_file H past "app.py" app_content = Ok tt ->
   forall e,
     host_write_file H (past ++ app_written) "requirements.txt" requirements = Raise e ->
     dashboard_choice "6" H past self =
       (Raise e, self,
        app_written ++ [Base (EWriteFile "requirements.txt" requirements (Raise e))])) /\
  (host_write_file H past "app.py" app_content = Ok tt ->
   host_write_file H (past ++ app_written) "requirements.txt" requirements = Ok tt ->
   forall answer,
     host_write_file H (past ++ app_written ++ requirements_written)
       "jenkins-build.sh" script_content = answer ->
     dashboard_choice "6" H past self =
       (match answer with Ok _ => Ok false | Raise e => Raise e end, self,
        app_written ++ requirements_written
        ++ [Base (EWriteFile "jenkins-build.sh" script_content answer)])) /\
  (exists rest,
      created_files = files_written (snd (dashboard_choice "6" H past self)) ++ rest) /\
  snd (fst (dashboard_choice "6" H past self)) = self /\
  (forall b, fst (fst (dashboard_choice "6" H past self)) = Ok b ->
             b = false /\
             files_written (snd (dashboard_choice "6" H past self)) = created_files) /\
  exists_answers (snd (dashboard_choice "6" H past self)) = [].
Proof.
  unfold app_written, requirements_written.
  unfold dashboard_choice, create_app_py, create_requirements, create_jenkins_script.
  cbn [String.eqb Ascii.eqb Bool.eqb]. cbn -[script_content app_content requirements].
  unfold_p. host_simpl.
  destruct (host_write_file H past "app.py" app_content) as [[]|e1] eqn:Happ; host_simpl.
  2: { repeat split; intros; simplify_eq; try reflexivity.
       exists ["requirements.txt"; "jenkins-build.sh"]. reflexivity. }
  rewrite <- ?app_assoc. host_simpl.
  destruct (host_write_file H _ "requirements.txt" requirements) as [[]|e2] eqn:Hreq;
    host_simpl.
  2: { repeat split; intros; simplify_eq; try reflexivity.
       exists ["jenkins-build.sh"]. reflexivity. }
  rewrite <- ?app_assoc. host_simpl.
  destruct (host_write_file H _ "jenkins-build.sh" script_content) as [[]|e3] eqn:Hjen;
    host_simpl.
  all: repeat split; intros; simplify_eq; try reflexivity.
  all: exists []; reflexivity.
Qed.

Lemma create_files_choice_witness :
  dashboard_choice "6" (host_disk_full []) [] monitor =
    (Raise OSError, monitor, [Base (EWriteFile "app.py" app_content (Raise OSError))]) /\
  fst (fst (dashboard_choice "6" (example_host running_out all_succeed true []) [] monitor))
    = Ok false /\
  files_written (snd (dashboard_choice "6" (example_host running_out all_succeed true [])
                        [] monitor)) = created_files.
Proof.
  split.
  - apply (proj1 (create_files_choice (host_disk_full []) [] monitor) OSError). reflexivity.
  - assert (Hr : fst (fst (dashboard_choice "6" (example_host running_out all_succeed true [])
                             [] monitor)) = Ok false) by (vm_compute; reflexivity).
    split; [exact Hr |].
    apply (proj1 (proj2 (proj2 (proj2 (proj2 (proj2 (create_files_choice
             (example_host running_out all_succeed true []) [] monitor))))))
             false Hr).
Defined.

(** ** Setup, then metrics *)

Lemma connect_prometheus_handle H past self u :
  connect_answers (snd (connect_prometheus H past self)) = [(u, Ok tt)] ->
  prometheus (snd (fst (connect_prometheus H past self)))
    = Some {| url := u; disable_ssl := true |}.
Proof.
  unfold connect_prometheus. host_cases.
  all: autorewrite with traces; cbn; intros Hc; simplify_eq; reflexivity.
Qed.

Lemma get_prometheus_metrics_queries_prefix self w h prom :
  prometheus self = Some prom ->
  exists rest,
    map (fun q => (prom, q)) metric_queries =
      queries_sent (snd (get_prometheus_metrics self w h)) ++ rest /\
    (length rest < 4)%nat.
Proof.
  metrics_cases; intros; simplify_eq.
  all: unfold metric_queries; cbn [map].
  all: first [ exists []; split; [reflexivity | cbn; lia]
             | eexists [_]; split; [reflexivity | cbn; lia]
             | eexists [_; _]; split; [reflexivity | cbn; lia]
             | eexists [_; _; _]; split; [reflexivity | cbn; lia] ].
Qed.

(** X21: setup and metrics compose: when [setup_environment]
    constructed the Prometheus client for the URL [u], the monitor holds
    a handle for [u], and a later [get_prometheus_metrics] sends its
    queries, at least the first, to that handle and to no other. *)
Theorem setup_environment_then_metrics H past self u w h :
  connect_answers (snd (setup_environment H past self)) = [(u, Ok tt)] ->
  prometheus (snd (fst (setup_environment H past self)))
    = Some {| url := u; disable_ssl := true |} /\
  exists rest,
    map (fun q => ({| url := u; disable_ssl := true |}, q)) metric_queries =
      queries_sent (snd (get_prometheus_metrics (snd (fst (setup_environment H past self))) w h))
      ++ rest /\
    (length rest < 4)%nat.
Proof.
  intros Hc.
  assert (Hp : prometheus (snd (fst (setup_environment H past self)))
               = Some {| url := u; disable_ssl := true |}).
  { revert Hc. unfold setup_environment. unfold_p. host_simpl2.
    repeat (case_step; host_simpl2).
    all: repeat (progress (autorewrite with traces; cbn)).
    all: try discriminate.
    all: match goal with
         | Hcall : connect_prometheus ?h ?p ?s = _ |- _ =>
             pose proof (connect_prometheus_handle h p s u) as Hh;
             rewrite Hcall in Hh; cbn [fst snd] in Hh
         end.
    all: rewrite ?app_nil_r; intros Hc; try (apply Hh; exact Hc).
    all: destruct (connect_answers l); discriminate. }
  split; [exact Hp |].
  apply get_prometheus_metrics_queries_prefix. exact Hp.
Qed.

Lemma setup_environment_then_metrics_witness :
  connect_answers (snd (setup_environment (example_host running_out all_succeed true [])
                          [] monitor)) = [(fallback_url, Ok tt)] /\
  prometheus (snd (fst (setup_environment (example_host running_out all_succeed true [])
                          [] monitor))) = Some local_prometheus.
Proof.
  assert (Hc : connect_answers (snd (setup_environment
                 (example_host running_out all_succeed true []) [] monitor))
               = [(fallback_url, Ok tt)]) by (vm_compute; reflexivity).
  split; [exact Hc |].
  apply (proj1 (setup_environment_then_metrics (example_host running_out all_succeed true [])
                  [] monitor fallback_url world_ready [] Hc)).
Defined.
